(** * Oppia: feedback domain objects, improvements handlers, story validators

    A shallow embedding of

      - [core/domain/feedback_domain.py]
      - [core/controllers/improvements.py]
      - [core/jobs/transforms/validation/story_validation.py]

    Python values are embedded as follows: [str] as [string], [int] as [Z],
    [None]-able fields as [option], dicts with string keys as
    [gmap string _], lists as [list].  A raised exception is an explicit
    [Raise] outcome, and calls into collaborator services are threaded
    through a world that records them. *)

From Stdlib Require Import ZArith List Ascii String DecimalString DecimalPos DecimalZ.
From stdpp Require Import base option list gmap strings fin_maps.

#[local] Open Scope string_scope.
#[local] Open Scope Z_scope.

(** ** Python runtime fragments *)

(** Exceptions raised by the modelled code. *)
Inductive exn : Type :=
  | IndexError
  | KeyError (key : string)
  | TypeError
  | ServiceError (msg : string).

Inductive result (A : Type) : Type :=
  | Ok (a : A)
  | Raise (e : exn).
Arguments Ok {A} a.
Arguments Raise {A} e.

(** Scalar Python/JSON values carried by dicts. *)
Inductive PyVal : Type :=
  | VNone
  | VBool (b : bool)
  | VInt (z : Z)
  | VStr (s : string).

#[global] Instance PyVal_eq_dec : EqDecision PyVal.
Proof. solve_decision. Defined.

Definition of_opt_str (o : option string) : PyVal :=
  match o with
  | Some s => VStr s
  | None => VNone
  end.

(** Truth value of an [str|None] field, as tested by [x if field else y]:
    [None] and the empty string are falsy. *)
Definition truthy_opt_str (o : option string) : bool :=
  match o with
  | Some EmptyString => false
  | Some _ => true
  | None => false
  end.

(** [str(i)] / [python_utils.UNICODE(i)] on an [int]: decimal digits with a
    leading minus sign for negative numbers. *)
Definition UNICODE (i : Z) : string := NilZero.string_of_int (Z.to_int i).

(** [sep.join(parts)]. *)
Fixpoint join (sep : string) (parts : list string) : string :=
  match parts with
  | [] => EmptyString
  | [p] => p
  | p :: rest => p ++ sep ++ join sep rest
  end.

(** [range(start, stop, step)].  The number of elements is computed as
    CPython does; [step = 0] raises [ValueError] there and is not used by
    the modelled code, so it gives the empty range here. *)
Fixpoint range_from (start step : Z) (count : nat) : list Z :=
  match count with
  | O => []
  | S count' => start :: range_from (start + step) step count'
  end.

Definition range_len (start stop step : Z) : Z :=
  if 0 <? step then
    if start <? stop then (stop - start - 1) / step + 1 else 0
  else if step <? 0 then
    if stop <? start then (start - stop - 1) / (- step) + 1 else 0
  else 0.

Definition range (start stop step : Z) : list Z :=
  range_from start step (Z.to_nat (range_len start stop step)).

(** [s.split(sep)] for a one-character separator: the segments between the
    occurrences of [sep]; never the empty list. *)
Fixpoint split (sep : ascii) (s : string) : list string :=
  match s with
  | EmptyString => [EmptyString]
  | String c s' =>
      if Ascii.eqb c sep then EmptyString :: split sep s'
      else match split sep s' with
           | seg :: segs => String c seg :: segs
           | [] => [String c EmptyString]
           end
  end.

(** [l[i]] on a list: negative indices count from the end, an index out of
    range raises [IndexError]. *)
Definition getitem {A : Type} (l : list A) (i : Z) : result A :=
  let n := Z.of_nat (List.length l) in
  let j := if i <? 0 then i + n else i in
  if (j <? 0) || (n <=? j) then Raise IndexError
  else match List.nth_error l (Z.to_nat j) with
       | Some x => Ok x
       | None => Raise IndexError
       end.

(** [s.startswith(p)]. *)
Fixpoint startswith (s p : string) {struct p} : bool :=
  match p, s with
  | EmptyString, _ => true
  | String _ _, EmptyString => false
  | String a p', String b s' => Ascii.eqb a b && startswith s' p'
  end.

(** [c in s] for a one-character [c]. *)
Fixpoint contains (c : ascii) (s : string) : bool :=
  match s with
  | EmptyString => false
  | String a s' => Ascii.eqb a c || contains c s'
  end.

(** [d[k]] on a dict: [KeyError] when the key is missing. *)
Definition dict_getitem (d : gmap string PyVal) (k : string) : result PyVal :=
  match d !! k with
  | Some v => Ok v
  | None => Raise (KeyError k)
  end.

(** [d.get(k, default)]. *)
Definition dict_get (d : gmap string PyVal) (k : string) (default : PyVal) : PyVal :=
  match d !! k with
  | Some v => v
  | None => default
  end.

(** ** Computations against a world

    A computation runs against a world [W] (the calls made so far into the
    collaborator services) and either returns or raises; the world is kept
    on both paths, so what was called before an exception stays visible. *)
Definition M (W A : Type) : Type := W -> result A * W.

Definition ret {W A : Type} (a : A) : M W A := fun w => (Ok a, w).

Definition raise {W A : Type} (e : exn) : M W A := fun w => (Raise e, w).

Definition bind {W A B : Type} (m : M W A) (k : A -> M W B) : M W B :=
  fun w =>
    match m w with
    | (Ok a, w') => k a w'
    | (Raise e, w') => (Raise e, w')
    end.

Definition lift {W A : Type} (r : result A) : M W A := fun w => (r, w).

Notation "'let*' x ':=' m 'in' k" := (bind m (fun x => k))
  (at level 10, x name, m at level 100, k at level 200).
Notation "'run' m 'in' k" := (bind m (fun _ => k))
  (at level 10, m at level 100, k at level 200).

(** ** [core/domain/feedback_domain.py] *)

(** A [datetime.datetime] value. *)
Record datetime : Type := {
  year : Z; month : Z; day : Z;
  hour : Z; minute : Z; second : Z; microsecond : Z
}.

(** The world of the feedback domain objects: the user ids handed to
    [user_services.get_username], in call order. *)
Definition username_lookups : Type := list string.

Section user_services.
(** Modelled from the spec: [user_services.get_username] is not part of
    the sources; it resolves an author id to the display username. *)
Variable get_username : string -> string.

Definition get_username_call (user_id : string) : M username_lookups string :=
  fun w => (Ok (get_username user_id), (w ++ [user_id])%list).

(** The conditional expression
    [user_services.get_username(author_id) if author_id else None]. *)
Definition username_or_none (author_id : option string) : M username_lookups PyVal :=
  match author_id with
  | Some user_id =>
      if truthy_opt_str author_id
      then (let* name := get_username_call user_id in ret (VStr name))
      else ret VNone
  | None => ret VNone
  end.
End user_services.

Module FeedbackThread.
Record t : Type := {
  id : string;
  entity_type : string;
  entity_id : string;
  state_name : option string;
  original_author_id : option string;
  status : string;
  subject : string;
  summary : string;
  has_suggestion : bool;
  message_count : Z;
  created_on : datetime;
  last_updated : datetime;
  last_nonempty_message_text : option string;
  last_nonempty_message_author_id : option string
}.

Section to_dict.
Variable get_username : string -> string.
(** Modelled from the spec: [utils.get_time_in_millisecs] is not part of
    the sources; it turns a datetime into a millisecond epoch integer. *)
Variable get_time_in_millisecs : datetime -> Z.

Definition to_dict (self : t) : M username_lookups (gmap string PyVal) :=
  let* last_updated_msecs := ret (get_time_in_millisecs (last_updated self)) in
  let* original_author_username :=
    username_or_none get_username (original_author_id self) in
  let* last_nonempty_message_author :=
    username_or_none get_username (last_nonempty_message_author_id self) in
  ret (list_to_map [
    ("last_updated_msecs", VInt last_updated_msecs);
    ("original_author_username", original_author_username);
    ("state_name", of_opt_str (state_name self));
    ("status", VStr (status self));
    ("subject", VStr (subject self));
    ("summary", VStr (summary self));
    ("thread_id", VStr (id self));
    ("message_count", VInt (message_count self));
    ("last_nonempty_message_text",
      of_opt_str (last_nonempty_message_text self));
    ("last_nonempty_message_author", last_nonempty_message_author)
  ]).
End to_dict.

Definition _get_full_message_id (self : t) (message_id : Z) : string :=
  join "." [id self; UNICODE message_id].

Definition get_last_two_message_ids (self : t) : list (option string) :=
  List.map
    (fun i => if 0 <=? i then Some (_get_full_message_id self i) else None)
    (range (message_count self - 1) (message_count self - 3) (-1)).
End FeedbackThread.

Module FeedbackMessage.
Record t : Type := {
  id : string;
  thread_id : string;
  message_id : PyVal;
  author_id : option string;
  updated_status : option string;
  updated_subject : option string;
  text : string;
  created_on : datetime;
  last_updated : datetime;
  received_via_email : bool
}.

(** [__init__]: plain field assignment. *)
Definition init (full_message_id thread_id : string) (message_id : PyVal)
    (author_id updated_status updated_subject : option string)
    (text : string) (created_on last_updated : datetime)
    (received_via_email : bool) : t :=
  {| id := full_message_id;
     thread_id := thread_id;
     message_id := message_id;
     author_id := author_id;
     updated_status := updated_status;
     updated_subject := updated_subject;
     text := text;
     created_on := created_on;
     last_updated := last_updated;
     received_via_email := received_via_email |}.

Definition entity_id (self : t) : result string :=
  getitem (split "." (id self)) 1.

Definition entity_type (self : t) : result string :=
  getitem (split "." (id self)) 0.

Section to_dict.
Variable get_username : string -> string.
Variable get_time_in_millisecs : datetime -> Z.

Definition to_dict (self : t) : M username_lookups (gmap string PyVal) :=
  let* author_username := username_or_none get_username (author_id self) in
  let* created_on_msecs := ret (get_time_in_millisecs (created_on self)) in
  let* entity_type := lift (entity_type self) in
  let* entity_id := lift (entity_id self) in
  ret (list_to_map [
    ("author_username", author_username);
    ("created_on_msecs", VInt created_on_msecs);
    ("entity_type", VStr entity_type);
    ("entity_id", VStr entity_id);
    ("message_id", message_id self);
    ("text", VStr (text self));
    ("updated_status", of_opt_str (updated_status self));
    ("updated_subject", of_opt_str (updated_subject self))
  ]).
End to_dict.
End FeedbackMessage.

Module FeedbackThreadSummary.
Record t : Type := {
  status : string;
  original_author_id : option string;
  last_updated : datetime;
  last_message_text : option string;
  total_message_count : Z;
  last_message_is_read : bool;
  second_last_message_is_read : bool;
  author_last_message : option string;
  author_second_last_message : option string;
  exploration_title : string;
  exploration_id : string;
  thread_id : string
}.

Section to_dict.
Variable get_time_in_millisecs : datetime -> Z.

Definition to_dict (self : t) : gmap string PyVal :=
  list_to_map [
    ("status", VStr (status self));
    ("original_author_id", of_opt_str (original_author_id self));
    ("last_updated_msecs", VInt (get_time_in_millisecs (last_updated self)));
    ("last_message_text", of_opt_str (last_message_text self));
    ("total_message_count", VInt (total_message_count self));
    ("last_message_is_read", VBool (last_message_is_read self));
    ("second_last_message_is_read",
      VBool (second_last_message_is_read self));
    ("author_last_message", of_opt_str (author_last_message self));
    ("author_second_last_message",
      of_opt_str (author_second_last_message self));
    ("exploration_title", VStr (exploration_title self));
    ("exploration_id", VStr (exploration_id self));
    ("thread_id", VStr (thread_id self))
  ].
End to_dict.
End FeedbackThreadSummary.

Module FullyQualifiedMessageIdentifier.
Record t : Type := {
  thread_id : string;
  message_id : PyVal
}.

Definition init (thread_id : string) (message_id : PyVal) : t :=
  {| thread_id := thread_id; message_id := message_id |}.
End FullyQualifiedMessageIdentifier.

Module FeedbackAnalytics.
Record t : Type := {
  id : string;
  entity_type : string;
  num_open_threads : Z;
  num_total_threads : Z
}.

(** [__init__]: the [id] of the object is the entity id. *)
Definition init (entity_type entity_id : string)
    (num_open_threads num_total_threads : Z) : t :=
  {| id := entity_id;
     entity_type := entity_type;
     num_open_threads := num_open_threads;
     num_total_threads := num_total_threads |}.

Definition to_dict (self : t) : gmap string PyVal :=
  list_to_map [
    ("num_open_threads", VInt (num_open_threads self));
    ("num_total_threads", VInt (num_total_threads self))
  ].
End FeedbackAnalytics.

Module FeedbackMessageReference.
Record t : Type := {
  entity_type : string;
  entity_id : string;
  thread_id : string;
  message_id : PyVal
}.

Definition init (entity_type entity_id thread_id : string)
    (message_id : PyVal) : t :=
  {| entity_type := entity_type;
     entity_id := entity_id;
     thread_id := thread_id;
     message_id := message_id |}.

Definition to_dict (self : t) : gmap string PyVal :=
  list_to_map [
    ("entity_type", VStr (entity_type self));
    ("entity_id", VStr (entity_id self));
    ("thread_id", VStr (thread_id self));
    ("message_id", message_id self)
  ].
End FeedbackMessageReference.

(** ** [core/jobs/transforms/validation/story_validation.py] *)

(** The change domain classes a validator can hand back; [None] on the
    Python side (skip validation) is [None] here. *)
Inductive change_domain_class : Type :=
  | StoryChange.

(** A stored datastore model: its id and its remaining properties. *)
Module Model.
Record t : Type := {
  id : string;
  properties : gmap string PyVal
}.
End Model.

Module ValidateStorySnapshotMetadataModel.
Definition _get_change_domain_class {input : Type} (unused_input_model : input)
    : option change_domain_class :=
  Some StoryChange.
End ValidateStorySnapshotMetadataModel.

Module ValidateStoryCommitLogEntryModel.
Section clone.
(** [job_utils.clone_model] is not part of the sources. *)
Variable clone_model : Model.t -> Model.t.

Definition _get_change_domain_class (input_model : Model.t)
    : option change_domain_class :=
  let model := clone_model input_model in
  if startswith (Model.id model) "story" then Some StoryChange else None.
End clone.
End ValidateStoryCommitLogEntryModel.

(** ** [core/controllers/improvements.py] *)

(** Modelled from the spec: [improvements_domain.TaskEntry] is not part of
    the sources; its attributes are listed in the data model, in the order
    of the constructor call in [post]. *)
Record TaskEntry : Type := {
  entity_type : string;
  entity_id : string;
  entity_version : PyVal;
  task_type : PyVal;
  target_type : string;
  target_id : PyVal;
  issue_description : PyVal;
  status : PyVal;
  resolver_id : option string;
  resolved_on : datetime
}.

(** Modelled from the spec: the exploration domain object is not part of
    the sources; the handlers read its [version]. *)
Record Exploration : Type := {
  exploration_id : string;
  version : Z
}.

(** An argument of a normalized request payload: a scalar or a list of
    dicts.  Iterating over a scalar raises [TypeError] (for a non-empty
    string, at the first subscript of a character); the empty string
    iterates over nothing. *)
Inductive payload_arg : Type :=
  | ArgVal (v : PyVal)
  | ArgDicts (items : list (gmap string PyVal)).

(** The handler instance, as far as the modelled methods read it. *)
Record handler : Type := {
  normalized_payload : gmap string payload_arg;
  user_id : option string
}.

(** The world of a request: how often the clock was read, the batches handed
    to [improvements_services.put_tasks], and the JSON bodies rendered. *)
Record world : Type := {
  utcnow_calls : nat;
  put_tasks_calls : list (list TaskEntry);
  rendered : list (gmap string PyVal)
}.

Section improvements.
(** [constants.TASK_ENTITY_TYPE_EXPLORATION], [constants.TASK_TARGET_TYPE_STATE]. *)
Variable TASK_ENTITY_TYPE_EXPLORATION : string.
Variable TASK_TARGET_TYPE_STATE : string.
(** [datetime.datetime.utcnow()]: the time shown at the n-th reading. *)
Variable clock : nat -> datetime.
(** [exp_fetchers.get_exploration_by_id]: the exploration, or the failure
    it raises. *)
Variable get_exploration_by_id : string -> result Exploration.
(** The [value]s of the properties of the [config_domain] registry. *)
Variable IS_IMPROVEMENTS_TAB_ENABLED : PyVal.
Variable HIGH_BOUNCE_RATE_TASK_STATE_BOUNCE_RATE_CREATION_THRESHOLD : PyVal.
Variable HIGH_BOUNCE_RATE_TASK_STATE_BOUNCE_RATE_OBSOLETION_THRESHOLD : PyVal.
Variable HIGH_BOUNCE_RATE_TASK_MINIMUM_EXPLORATION_STARTS : PyVal.

Definition utcnow : M world datetime :=
  fun w =>
    (Ok (clock (utcnow_calls w)),
     {| utcnow_calls := S (utcnow_calls w);
        put_tasks_calls := put_tasks_calls w;
        rendered := rendered w |}).

(** Modelled from the spec: [improvements_services.put_tasks] is not part
    of the sources; it submits the batch to the task-write service. *)
Definition put_tasks (tasks : list TaskEntry) : M world unit :=
  fun w =>
    (Ok tt,
     {| utcnow_calls := utcnow_calls w;
        put_tasks_calls := (put_tasks_calls w ++ [tasks])%list;
        rendered := rendered w |}).

(** [self.render_json(values)]. *)
Definition render_json (values : gmap string PyVal) : M world unit :=
  fun w =>
    (Ok tt,
     {| utcnow_calls := utcnow_calls w;
        put_tasks_calls := put_tasks_calls w;
        rendered := (rendered w ++ [values])%list |}).

(** The [for task_entry in task_entries] loop of [post], with the list
    [task_entries_to_put] built so far. *)
Fixpoint post_loop (self : handler) (exploration_id : string)
    (task_entries : list (gmap string PyVal))
    (task_entries_to_put : list TaskEntry) : M world (list TaskEntry) :=
  match task_entries with
  | [] => ret task_entries_to_put
  | task_entry :: rest =>
      let* entity_version := lift (dict_getitem task_entry "entity_version") in
      let* task_type := lift (dict_getitem task_entry "task_type") in
      let* target_id := lift (dict_getitem task_entry "target_id") in
      let* status := lift (dict_getitem task_entry "status") in
      let issue_description := dict_get task_entry "issue_description" VNone in
      let* now := utcnow in
      post_loop self exploration_id rest
        (task_entries_to_put ++
           [ {| entity_type := TASK_ENTITY_TYPE_EXPLORATION;
                entity_id := exploration_id;
                entity_version := entity_version;
                task_type := task_type;
                target_type := TASK_TARGET_TYPE_STATE;
                target_id := target_id;
                issue_description := issue_description;
                status := status;
                resolver_id := user_id self;
                resolved_on := now |} ])%list
  end.

(** [ExplorationImprovementsHandler.post]. *)
Definition post (self : handler) (exploration_id : string) : M world unit :=
  let* task_entries :=
    match normalized_payload self !! "task_entries" with
    | Some (ArgDicts items) => ret items
    | Some (ArgVal (VStr EmptyString)) => ret []
    | Some (ArgVal _) | None => raise TypeError
    end in
  let* task_entries_to_put := post_loop self exploration_id task_entries [] in
  run put_tasks task_entries_to_put in
  render_json ∅.

(** [ExplorationImprovementsConfigHandler.get]. *)
Definition get (exploration_id : string) : M world unit :=
  let* exploration := lift (get_exploration_by_id exploration_id) in
  render_json (list_to_map [
    ("exploration_id", VStr exploration_id);
    ("exploration_version", VInt (version exploration));
    ("is_improvements_tab_enabled", IS_IMPROVEMENTS_TAB_ENABLED);
    ("high_bounce_rate_task_state_bounce_rate_creation_threshold",
      HIGH_BOUNCE_RATE_TASK_STATE_BOUNCE_RATE_CREATION_THRESHOLD);
    ("high_bounce_rate_task_state_bounce_rate_obsoletion_threshold",
      HIGH_BOUNCE_RATE_TASK_STATE_BOUNCE_RATE_OBSOLETION_THRESHOLD);
    ("high_bounce_rate_task_minimum_exploration_starts",
      HIGH_BOUNCE_RATE_TASK_MINIMUM_EXPLORATION_STARTS)
  ]).
End improvements.

(** ** Vocabulary of the statements *)

(** The username shown for an author id: the resolved display username, or
    [None] when the id is absent or empty. *)
Definition display_username (get_username : string -> string)
    (author_id : option string) : PyVal :=
  match author_id with
  | Some EmptyString | None => VNone
  | Some user_id => VStr (get_username user_id)
  end.

(** The ids among [author_ids] that are resolved, in order: those that are
    present and not empty. *)
Definition resolved_ids (author_ids : list (option string)) : list string :=
  omap (fun o => if truthy_opt_str o then o else None) author_ids.

(** The keys that [post] subscripts in every item of [task_entries]; the
    item schema enforced before the handler runs makes them present. *)
Definition has_required_keys (task_entry : gmap string PyVal) : bool :=
  match task_entry !! "entity_version", task_entry !! "task_type",
        task_entry !! "target_id", task_entry !! "status" with
  | Some _, Some _, Some _, Some _ => true
  | _, _, _, _ => false
  end.

(** The task entry that the specification asks for an item of the request:
    entity type and target type fixed, the ids and the other fields taken
    from the request and the item, [issue_description] being [None] when
    the item has none. *)
Definition task_entry_of_item (entity_type_exploration target_type_state : string)
    (self : handler) (exploration_id : string)
    (item : gmap string PyVal) (now : datetime) : TaskEntry :=
  {| entity_type := entity_type_exploration;
     entity_id := exploration_id;
     entity_version := default VNone (item !! "entity_version");
     task_type := default VNone (item !! "task_type");
     target_type := target_type_state;
     target_id := default VNone (item !! "target_id");
     issue_description := default VNone (item !! "issue_description");
     status := default VNone (item !! "status");
     resolver_id := user_id self;
     resolved_on := now |}.

(** The task entry expected for the [i]-th item when the clock has been read
    [first] times before the loop. *)
Definition expected_task (entity_type_exploration target_type_state : string)
    (clock : nat -> datetime) (self : handler) (exploration_id : string)
    (first i : nat) (item : gmap string PyVal) : TaskEntry :=
  task_entry_of_item entity_type_exploration target_type_state
    self exploration_id item (clock (first + i)%nat).

(** ** Concrete inputs *)

Definition epoch : datetime :=
  {| year := 1970; month := 1; day := 1;
     hour := 0; minute := 0; second := 0; microsecond := 0 |}.

Definition one_o_clock : datetime :=
  {| year := 1970; month := 1; day := 1;
     hour := 1; minute := 0; second := 0; microsecond := 0 |}.

Definition message_with_id (full_message_id : string) : FeedbackMessage.t :=
  FeedbackMessage.init full_message_id "exploration.abc123" (VInt 4) None None
    None
    "Thanks" epoch epoch false.

Definition thread_with_count (message_count : Z) : FeedbackThread.t :=
  {| FeedbackThread.id := "exploration.abc123.t1";
     FeedbackThread.entity_type := "exploration";
     FeedbackThread.entity_id := "abc123";
     FeedbackThread.state_name := Some "Introduction";
     FeedbackThread.original_author_id := None;
     FeedbackThread.status := "open";
     FeedbackThread.subject := "Typo";
     FeedbackThread.summary := "";
     FeedbackThread.has_suggestion := false;
     FeedbackThread.message_count := message_count;
     FeedbackThread.created_on := one_o_clock;
     FeedbackThread.last_updated := epoch;
     FeedbackThread.last_nonempty_message_text := Some "Thanks";
     FeedbackThread.last_nonempty_message_author_id := Some "uid_2" |}.

Definition summary_of_uid_1 : FeedbackThreadSummary.t :=
  {| FeedbackThreadSummary.status := "open";
     FeedbackThreadSummary.original_author_id := Some "uid_1";
     FeedbackThreadSummary.last_updated := epoch;
     FeedbackThreadSummary.last_message_text := Some "Thanks";
     FeedbackThreadSummary.total_message_count := 2;
     FeedbackThreadSummary.last_message_is_read := false;
     FeedbackThreadSummary.second_last_message_is_read := true;
     FeedbackThreadSummary.author_last_message := Some "bob";
     FeedbackThreadSummary.author_second_last_message := Some "carol";
     FeedbackThreadSummary.exploration_title := "Fractions";
     FeedbackThreadSummary.exploration_id := "abc123";
     FeedbackThreadSummary.thread_id := "exploration.abc123.t1" |}.

(** A user service in which every id resolves to the username ["alice"]. *)
Definition alice_for_all (user_id : string) : string := "alice".

(** Milliseconds of a datetime, on the time of day only. *)
Definition millisecs_of_day (d : datetime) : Z :=
  ((hour d * 60 + minute d) * 60 + second d) * 1000 + microsecond d / 1000.

(** A clone as a fresh record with the same id and properties. *)
Definition copy_model (m : Model.t) : Model.t :=
  {| Model.id := Model.id m; Model.properties := Model.properties m |}.

(** A clock that advances one second per reading. *)
Definition clock_of_seconds (n : nat) : datetime :=
  {| year := 1970; month := 1; day := 1;
     hour := 0; minute := 0; second := Z.of_nat n; microsecond := 0 |}.

(** An exploration store that holds the single exploration ["abc123"], at
    version 7. *)
Definition fetch_abc123 (exploration_id : string) : result Exploration :=
  if String.eqb exploration_id "abc123"
  then Ok {| exploration_id := exploration_id; version := 7 |}
  else Raise (ServiceError "Entity not found").

Definition item_bounce : gmap string PyVal :=
  list_to_map [
    ("entity_version", VInt 7);
    ("task_type", VStr "high_bounce_rate");
    ("target_id", VStr "Introduction");
    ("status", VStr "open")
  ].

Definition item_answers : gmap string PyVal :=
  list_to_map [
    ("entity_version", VInt 7);
    ("task_type", VStr "needs_guiding_responses");
    ("target_id", VStr "Middle");
    ("issue_description", VStr "Many unresolved answers");
    ("status", VStr "resolved")
  ].

Definition handler_with (task_entries : list (gmap string PyVal)) : handler :=
  {| normalized_payload := {[ "task_entries" := ArgDicts task_entries ]};
     user_id := Some "uid_editor" |}.

Definition fresh_world : world :=
  {| utcnow_calls := 0; put_tasks_calls := []; rendered := [] |}.

(** The key whose subscript raises first in the body of the loop of [post]:
    the first of the four subscripted keys that the item lacks. *)
Definition first_missing_key (task_entry : gmap string PyVal) : option string :=
  match task_entry !! "entity_version" with
  | None => Some "entity_version"
  | Some _ =>
      match task_entry !! "task_type" with
      | None => Some "task_type"
      | Some _ =>
          match task_entry !! "target_id" with
          | None => Some "target_id"
          | Some _ =>
              match task_entry !! "status" with
              | None => Some "status"
              | Some _ => None
              end
          end
      end
  end.

(** The keys of an item that [post] reads. *)
Definition keys_read_by_post : list string :=
  ["entity_version"; "task_type"; "target_id"; "status"; "issue_description"].

(** Two items that agree on the keys that [post] reads. *)
Definition agree_on_read_keys (item1 item2 : gmap string PyVal) : Prop :=
  Forall (fun k => item1 !! k = item2 !! k) keys_read_by_post.

(** Two task entries that agree on every field but [resolved_on]. *)
Definition agree_except_resolved_on (task1 task2 : TaskEntry) : Prop :=
  entity_type task1 = entity_type task2
  /\ entity_id task1 = entity_id task2
  /\ entity_version task1 = entity_version task2
  /\ task_type task1 = task_type task2
  /\ target_type task1 = target_type task2
  /\ target_id task1 = target_id task2
  /\ issue_description task1 = issue_description task2
  /\ status task1 = status task2
  /\ resolver_id task1 = resolver_id task2.

(** ** Further concrete inputs *)

Definition message_of (author_id : option string) (full_message_id : string)
    : FeedbackMessage.t :=
  FeedbackMessage.init full_message_id "exploration.abc123" (VInt 4) author_id
    None None "Thanks" epoch epoch false.

Definition thread_of_author (original_author_id : option string)
    : FeedbackThread.t :=
  {| FeedbackThread.id := "exploration.abc123.t1";
     FeedbackThread.entity_type := "exploration";
     FeedbackThread.entity_id := "abc123";
     FeedbackThread.state_name := None;
     FeedbackThread.original_author_id := original_author_id;
     FeedbackThread.status := "open";
     FeedbackThread.subject := "Typo";
     FeedbackThread.summary := "";
     FeedbackThread.has_suggestion := false;
     FeedbackThread.message_count := 1;
     FeedbackThread.created_on := epoch;
     FeedbackThread.last_updated := epoch;
     FeedbackThread.last_nonempty_message_text := None;
     FeedbackThread.last_nonempty_message_author_id := Some "uid_2" |}.

(** [item_bounce] with keys that [post] does not read. *)
Definition item_bounce_with_extras : gmap string PyVal :=
  <["entity_id" := VStr "another"]> (<["resolver_id" := VStr "uid_x"]> item_bounce).

(** An item without [target_id]. *)
Definition item_without_target : gmap string PyVal :=
  list_to_map [
    ("entity_version", VInt 7);
    ("task_type", VStr "high_bounce_rate");
    ("status", VStr "open")
  ].

(** A handler whose payload has no [task_entries]. *)
Definition handler_without_entries : handler :=
  {| normalized_payload := ∅; user_id := Some "uid_editor" |}.

(** * Properties *)

(** ** The runtime fragments on concrete inputs *)

Example UNICODE_examples :
  UNICODE 0 = "0" /\ UNICODE 41 = "41" /\ UNICODE (-7) = "-7".
Proof. repeat split. Qed.

Example range_examples :
  range 4 2 (-1) = [4; 3] /\ range 0 (-2) (-1) = [0; -1] /\
  range 0 5 2 = [0; 2; 4] /\ range 5 0 (-2) = [5; 3; 1] /\ range 3 3 1 = [].
Proof. repeat split. Qed.

Example split_examples :
  split "." "exploration.abc123.4" = ["exploration"; "abc123"; "4"] /\
  split "." "" = [""] /\ split "." "a..b." = ["a"; ""; "b"; ""] /\
  split "." "abc" = ["abc"].
Proof. repeat split. Qed.

(** [UNICODE] is the decimal rendering: reading it back gives the number. *)
Lemma UNICODE_read_back (i : Z) :
  option_map Z.of_int (NilZero.int_of_string (UNICODE i)) = Some i.
Proof.
  unfold UNICODE.
  rewrite NilZero.isi.
  - simpl. now rewrite DecimalZ.of_to.
  - destruct i as [|p|p]; simpl; try discriminate.
    intros [= H]. now apply (DecimalPos.Unsigned.to_uint_nonnil p).
  - destruct i as [|p|p]; simpl; try discriminate.
    intros [= H]. now apply (DecimalPos.Unsigned.to_uint_nonnil p).
Qed.

Lemma UNICODE_inj (i j : Z) : UNICODE i = UNICODE j -> i = j.
Proof.
  intros H. pose proof (UNICODE_read_back i) as Hi.
  rewrite H, UNICODE_read_back in Hi. congruence.
Qed.

(** ** [FeedbackThread.get_last_two_message_ids] *)

(** The descending range of the list comprehension has exactly the two
    indices below [n], whatever the sign of [n]. *)
Lemma range_last_two (n : Z) : range (n - 1) (n - 3) (-1) = [n - 1; n - 2].
Proof.
  unfold range, range_len.
  replace (0 <? -1) with false by reflexivity.
  replace (-1 <? 0) with true by reflexivity.
  replace (n - 3 <? n - 1) with true by (symmetry; apply Z.ltb_lt; lia).
  replace (n - 1 - (n - 3) - 1) with 1 by lia.
  simpl. do 2 f_equal. lia.
Qed.

Section get_last_two_message_ids.
Import FeedbackThread.

(** C1: for a thread with [message_count = n], [get_last_two_message_ids]
    returns the two-element list of the full ids of the messages [n - 1]
    and [n - 2], in this order, where the full id of [i] is the thread id,
    a ['.'] and the decimal rendering of [i], and a slot whose index is
    below zero holds [None]; so [n = 1] gives [[full_id 0; None]] and
    [n = 0] gives [[None; None]]. *)
Theorem get_last_two_message_ids_spec (self : t) (n : Z) :
  message_count self = n ->
  let full_id i := (id self ++ "." ++ UNICODE i)%string in
  let slot i := if i <? 0 then None else Some (full_id i) in
  get_last_two_message_ids self = [slot (n - 1); slot (n - 2)]
  /\ (2 <= n ->
      get_last_two_message_ids self
      = [Some (full_id (n - 1)); Some (full_id (n - 2))])
  /\ (n = 1 ->
      get_last_two_message_ids self = [Some (id self ++ ".0")%string; None])
  /\ (n = 0 -> get_last_two_message_ids self = [None; None]).
Proof.
  intros Hn full_id slot.
  assert (Hgen : get_last_two_message_ids self = [slot (n - 1); slot (n - 2)]).
  { unfold get_last_two_message_ids. rewrite Hn, range_last_two.
    unfold slot, full_id, _get_full_message_id. simpl.
    rewrite (Z.leb_antisym (n - 1) 0), (Z.leb_antisym (n - 2) 0).
    destruct (n - 1 <? 0), (n - 2 <? 0); reflexivity. }
  split; [exact Hgen|]. rewrite Hgen. unfold slot.
  repeat split.
  - intros Hge.
    destruct (Z.ltb_spec (n - 1) 0), (Z.ltb_spec (n - 2) 0); (lia || reflexivity).
  - intros ->. reflexivity.
  - intros ->. reflexivity.
Qed.
End get_last_two_message_ids.

Lemma get_last_two_message_ids_one_message :
  FeedbackThread.get_last_two_message_ids (thread_with_count 1)
  = [Some "exploration.abc123.t1.0"; None].
Proof.
  destruct (get_last_two_message_ids_spec (thread_with_count 1) 1 eq_refl)
    as (_ & _ & H1 & _).
  exact (H1 eq_refl).
Defined.

(** ** [split], [getitem] and the derived properties of [FeedbackMessage] *)

Lemma split_cons (sep : ascii) (s : string) :
  exists seg segs, split sep s = seg :: segs.
Proof.
  induction s as [|c s IH]; simpl.
  - eauto.
  - destruct (Ascii.eqb c sep); [eauto|].
    destruct IH as (seg & segs & ->). eauto.
Qed.

Lemma split_no_sep (sep : ascii) (s : string) :
  contains sep s = false -> split sep s = [s].
Proof.
  induction s as [|c s IH]; simpl; [reflexivity|].
  intros H. apply orb_false_iff in H as [Hc Hs].
  rewrite Hc, (IH Hs). reflexivity.
Qed.

Lemma split_app_sep (sep : ascii) (a rest : string) :
  contains sep a = false ->
  split sep (a ++ String sep rest)%string = a :: split sep rest.
Proof.
  induction a as [|c a IH]; simpl.
  - intros _. rewrite Ascii.eqb_refl. reflexivity.
  - intros H. apply orb_false_iff in H as [Hc Ha].
    rewrite Hc, (IH Ha). reflexivity.
Qed.

Lemma split_with_sep (sep : ascii) (s : string) :
  contains sep s = true ->
  exists seg1 seg2 segs, split sep s = seg1 :: seg2 :: segs.
Proof.
  induction s as [|c s IH]; simpl; [discriminate|].
  destruct (Ascii.eqb c sep); simpl.
  - intros _. destruct (split_cons sep s) as (seg & segs & ->). eauto.
  - intros H. destruct (IH H) as (seg1 & seg2 & segs & ->). eauto.
Qed.

Lemma getitem_0 {A : Type} (x : A) (l : list A) : getitem (x :: l) 0 = Ok x.
Proof.
  unfold getitem. cbn zeta. change (0 <? 0) with false. cbn iota beta.
  destruct (Z.leb_spec (Z.of_nat (List.length (x :: l))) 0) as [H|H];
    [simpl List.length in H; lia | reflexivity].
Qed.

Lemma getitem_1 {A : Type} (x y : A) (l : list A) :
  getitem (x :: y :: l) 1 = Ok y.
Proof.
  unfold getitem. cbn zeta. change (1 <? 0) with false. cbn iota beta.
  destruct (Z.leb_spec (Z.of_nat (List.length (x :: y :: l))) 1) as [H|H];
    [simpl List.length in H; lia | reflexivity].
Qed.

Lemma getitem_1_singleton {A : Type} (x : A) : getitem [x] 1 = Raise IndexError.
Proof. reflexivity. Qed.

Section FeedbackMessage_derived.
Import FeedbackMessage.

Lemma entity_type_first (self : t) (seg : string) (segs : list string) :
  split "." (id self) = seg :: segs -> entity_type self = Ok seg.
Proof. unfold entity_type. intros ->. apply getitem_0. Qed.

Lemma entity_id_second (self : t) (seg1 seg2 : string) (segs : list string) :
  split "." (id self) = seg1 :: seg2 :: segs -> entity_id self = Ok seg2.
Proof. unfold entity_id. intros ->. apply getitem_1. Qed.

Lemma entity_id_no_dot (self : t) :
  contains "." (id self) = false -> entity_id self = Raise IndexError.
Proof.
  intros H. unfold entity_id. rewrite (split_no_sep _ _ H). reflexivity.
Qed.

Lemma entity_id_raises_iff (self : t) :
  entity_id self = Raise IndexError <-> contains "." (id self) = false.
Proof.
  split; [|apply entity_id_no_dot].
  destruct (contains "." (id self)) eqn:E; [|reflexivity].
  destruct (split_with_sep _ _ E) as (seg1 & seg2 & segs & Hs).
  rewrite (entity_id_second _ _ _ _ Hs). discriminate.
Qed.

(** C4: for a message whose id is a ['.']-separated composite
    [a.b.rest], [entity_type] is the segment [a] before the first ['.']
    and [entity_id] is the segment [b] between the first and the second
    ['.']. *)
Theorem entity_type_entity_id_of_composite (self : t) (a b rest : string) :
  id self = (a ++ "." ++ b ++ "." ++ rest)%string ->
  contains "." a = false ->
  contains "." b = false ->
  entity_type self = Ok a /\ entity_id self = Ok b.
Proof.
  intros Hid Ha Hb.
  assert (Hs : split "." (id self) = a :: b :: split "." rest).
  { rewrite Hid. change ("." ++ b ++ "." ++ rest)%string
      with (String "." (b ++ String "." rest)).
    rewrite (split_app_sep _ _ _ Ha), (split_app_sep _ _ _ Hb). reflexivity. }
  split.
  - exact (entity_type_first _ _ _ Hs).
  - exact (entity_id_second _ _ _ _ Hs).
Qed.

(** C10: [entity_type] is total.  For every id, the empty string and ids
    without ['.'] included, the split has a first segment and [entity_type]
    returns it; [entity_id] is the only one of the two that can raise, and
    it raises exactly on the ids without ['.']. *)
Theorem entity_type_total (self : t) :
  (exists seg segs,
      split "." (id self) = seg :: segs /\ entity_type self = Ok seg)
  /\ (1 <= List.length (split "." (id self)))%nat
  /\ (entity_id self = Raise IndexError <-> contains "." (id self) = false).
Proof.
  destruct (split_cons "." (id self)) as (seg & segs & Hs).
  split; [|split].
  - exists seg, segs. split; [exact Hs|]. exact (entity_type_first _ _ _ Hs).
  - rewrite Hs. simpl. lia.
  - apply entity_id_raises_iff.
Qed.
(** C5 (as amended): construction stores the id as given, whatever its
    shape.  On an id without ['.'] accessing [entity_id] raises
    [IndexError], while [entity_type] returns the whole id; on an id with a
    ['.'] neither raises and they return the first two segments. *)
Theorem derived_fields_of_unvalidated_id
    (full_message_id thread_id : string) (message_id : PyVal)
    (author_id updated_status updated_subject : option string)
    (text : string) (created_on last_updated : datetime)
    (received_via_email : bool) :
  let self := init full_message_id thread_id message_id author_id
                updated_status updated_subject text created_on last_updated
                received_via_email in
  id self = full_message_id
  /\ (contains "." full_message_id = false ->
      entity_id self = Raise IndexError
      /\ entity_type self = Ok full_message_id)
  /\ (contains "." full_message_id = true ->
      exists seg1 seg2 segs,
        split "." full_message_id = seg1 :: seg2 :: segs
        /\ entity_type self = Ok seg1 /\ entity_id self = Ok seg2).
Proof.
  intros self. split; [reflexivity|]. split.
  - intros H. split.
    + apply entity_id_no_dot. exact H.
    + apply (entity_type_first self _ []). apply split_no_sep. exact H.
  - intros H. destruct (split_with_sep _ _ H) as (seg1 & seg2 & segs & Hs).
    exists seg1, seg2, segs. split; [exact Hs|]. split.
    + exact (entity_type_first self _ _ Hs).
    + exact (entity_id_second self _ _ _ Hs).
Qed.
End FeedbackMessage_derived.

(** ** The derived properties on concrete messages *)

Lemma entity_type_entity_id_example :
  FeedbackMessage.entity_type (message_with_id "exploration.abc123.4")
    = Ok "exploration"
  /\ FeedbackMessage.entity_id (message_with_id "exploration.abc123.4")
    = Ok "abc123".
Proof.
  apply (entity_type_entity_id_of_composite
           (message_with_id "exploration.abc123.4") "exploration" "abc123" "4");
    reflexivity.
Defined.

Lemma entity_type_total_example :
  FeedbackMessage.entity_type (message_with_id "") = Ok ""
  /\ FeedbackMessage.entity_id (message_with_id "abc") = Raise IndexError.
Proof.
  split.
  - destruct (entity_type_total (message_with_id "")) as [(seg & segs & Hs & Ht) _].
    rewrite Ht. simpl in Hs. congruence.
  - apply (entity_type_total (message_with_id "abc")). reflexivity.
Defined.

Lemma derived_fields_of_unvalidated_id_example :
  FeedbackMessage.entity_id (message_with_id "abc") = Raise IndexError
  /\ FeedbackMessage.entity_type (message_with_id "abc") = Ok "abc".
Proof.
  apply (derived_fields_of_unvalidated_id "abc" "exploration.abc123" (VInt 4)
           None None None "Thanks" epoch epoch false).
  reflexivity.
Defined.

(** The ids ["abc"] and ["exploration.abc123"] lack the three-part shape,
    yet [entity_type] returns on the first, and both properties return on
    the second. *)
Lemma malformed_id_without_raise :
  FeedbackMessage.entity_type (message_with_id "abc") = Ok "abc"
  /\ List.length (split "." "exploration.abc123") = 2%nat
  /\ FeedbackMessage.entity_type (message_with_id "exploration.abc123")
     = Ok "exploration"
  /\ FeedbackMessage.entity_id (message_with_id "exploration.abc123")
     = Ok "abc123".
Proof. repeat split. Qed.

(** ** The story validators *)

Lemma startswith_spec (s p : string) :
  startswith s p = true <-> exists rest, s = (p ++ rest)%string.
Proof.
  revert s. induction p as [|a p IH]; intros s; simpl.
  - split; [eauto|reflexivity].
  - destruct s as [|b s].
    + split; [discriminate|]. intros [rest H]. discriminate.
    + rewrite andb_true_iff, IH. split.
      * intros [Hab [rest ->]]. apply Ascii.eqb_eq in Hab as ->. eauto.
      * intros [rest [= -> ->]]. split; [apply Ascii.eqb_refl|eauto].
Qed.

Section story_commit_log_entry.
Import ValidateStoryCommitLogEntryModel.

Variable clone_model : Model.t -> Model.t.
Hypothesis clone_model_keeps_id : forall m, Model.id (clone_model m) = Model.id m.

(** C2: [ValidateStoryCommitLogEntryModel._get_change_domain_class] returns
    [StoryChange] when the id of the record starts with ["story"], and the
    skip signal [None] for every other id, the empty string included. *)
Theorem story_commit_log_entry_change_domain_class (input_model : Model.t) :
  ((exists rest, Model.id input_model = ("story" ++ rest)%string) ->
   _get_change_domain_class clone_model input_model = Some StoryChange)
  /\ (~ (exists rest, Model.id input_model = ("story" ++ rest)%string) ->
      _get_change_domain_class clone_model input_model = None)
  /\ (Model.id input_model = "" ->
      _get_change_domain_class clone_model input_model = None).
Proof.
  unfold _get_change_domain_class. rewrite clone_model_keeps_id.
  repeat split.
  - intros H. apply startswith_spec in H. rewrite H. reflexivity.
  - intros H. destruct (startswith (Model.id input_model) "story") eqn:E;
      [|reflexivity].
    exfalso. apply H. apply startswith_spec. exact E.
  - intros ->. reflexivity.
Qed.
End story_commit_log_entry.

Lemma story_commit_log_entry_examples :
  ValidateStoryCommitLogEntryModel._get_change_domain_class copy_model
    {| Model.id := "story-7"; Model.properties := ∅ |} = Some StoryChange
  /\ ValidateStoryCommitLogEntryModel._get_change_domain_class copy_model
    {| Model.id := ""; Model.properties := ∅ |} = None.
Proof.
  split.
  - apply (story_commit_log_entry_change_domain_class copy_model
             (fun m => eq_refl)).
    exists "-7". reflexivity.
  - apply (story_commit_log_entry_change_domain_class copy_model
             (fun m => eq_refl)).
    reflexivity.
Defined.

(** C9: [ValidateStorySnapshotMetadataModel._get_change_domain_class]
    returns [StoryChange] for every input model, of whatever kind and
    content, so it never gives the skip signal; the commit log entry
    validator does give it, for instance on the id ["topic-1"]. *)
Theorem story_snapshot_metadata_change_domain_class :
  (forall (input : Type) (unused_input_model : input),
      ValidateStorySnapshotMetadataModel._get_change_domain_class
        unused_input_model = Some StoryChange)
  /\ (exists input_model,
        ValidateStoryCommitLogEntryModel._get_change_domain_class
          (fun m => m) input_model = None).
Proof.
  split.
  - intros input unused_input_model. reflexivity.
  - exists {| Model.id := "topic-1"; Model.properties := ∅ |}. reflexivity.
Qed.

(** ** The [to_dict] projections *)

Section to_dict_runs.
Variable get_username : string -> string.
Variable get_time_in_millisecs : datetime -> Z.

Lemma resolved_ids_cons (o : option string) (l : list (option string)) :
  resolved_ids (o :: l) = (resolved_ids [o] ++ resolved_ids l)%list.
Proof.
  unfold resolved_ids. simpl. destruct (truthy_opt_str o), o; reflexivity.
Qed.

Lemma resolved_ids_None (l : list (option string)) :
  resolved_ids (None :: l) = resolved_ids l.
Proof. reflexivity. Qed.

Lemma display_username_None : display_username get_username None = VNone.
Proof. reflexivity. Qed.

(** The conditional expression resolves exactly the present, non-empty
    ids. *)
Lemma username_or_none_run (author_id : option string) (w : username_lookups) :
  username_or_none get_username author_id w
  = (Ok (display_username get_username author_id),
     (w ++ resolved_ids [author_id])%list).
Proof.
  destruct author_id as [[|c s]|]; simpl; unfold ret; simpl;
    rewrite ?app_nil_r; reflexivity.
Qed.

Lemma FeedbackThread_to_dict_run (self : FeedbackThread.t) (w : username_lookups) :
  FeedbackThread.to_dict get_username get_time_in_millisecs self w
  = (Ok (list_to_map [
       ("last_updated_msecs",
         VInt (get_time_in_millisecs (FeedbackThread.last_updated self)));
       ("original_author_username",
         display_username get_username (FeedbackThread.original_author_id self));
       ("state_name", of_opt_str (FeedbackThread.state_name self));
       ("status", VStr (FeedbackThread.status self));
       ("subject", VStr (FeedbackThread.subject self));
       ("summary", VStr (FeedbackThread.summary self));
       ("thread_id", VStr (FeedbackThread.id self));
       ("message_count", VInt (FeedbackThread.message_count self));
       ("last_nonempty_message_text",
         of_opt_str (FeedbackThread.last_nonempty_message_text self));
       ("last_nonempty_message_author",
         display_username get_username
           (FeedbackThread.last_nonempty_message_author_id self))
     ]),
     (w ++ resolved_ids [FeedbackThread.original_author_id self;
                         FeedbackThread.last_nonempty_message_author_id self])%list).
Proof.
  unfold FeedbackThread.to_dict, bind. unfold ret at 1.
  rewrite !username_or_none_run. unfold ret.
  rewrite (resolved_ids_cons _ [_]), app_assoc. reflexivity.
Qed.

Lemma FeedbackMessage_to_dict_run (self : FeedbackMessage.t)
    (w : username_lookups) (seg1 seg2 : string) (segs : list string) :
  split "." (FeedbackMessage.id self) = seg1 :: seg2 :: segs ->
  FeedbackMessage.to_dict get_username get_time_in_millisecs self w
  = (Ok (list_to_map [
       ("author_username",
         display_username get_username (FeedbackMessage.author_id self));
       ("created_on_msecs",
         VInt (get_time_in_millisecs (FeedbackMessage.created_on self)));
       ("entity_type", VStr seg1);
       ("entity_id", VStr seg2);
       ("message_id", FeedbackMessage.message_id self);
       ("text", VStr (FeedbackMessage.text self));
       ("updated_status", of_opt_str (FeedbackMessage.updated_status self));
       ("updated_subject", of_opt_str (FeedbackMessage.updated_subject self))
     ]),
     (w ++ resolved_ids [FeedbackMessage.author_id self])%list).
Proof.
  intros Hs. unfold FeedbackMessage.to_dict, bind.
  rewrite username_or_none_run. unfold ret at 1. unfold lift.
  rewrite (entity_type_first _ _ _ Hs), (entity_id_second _ _ _ _ Hs).
  reflexivity.
Qed.

Lemma FeedbackMessage_to_dict_raise (self : FeedbackMessage.t)
    (w : username_lookups) :
  contains "." (FeedbackMessage.id self) = false ->
  FeedbackMessage.to_dict get_username get_time_in_millisecs self w
  = (Raise IndexError, (w ++ resolved_ids [FeedbackMessage.author_id self])%list).
Proof.
  intros H. unfold FeedbackMessage.to_dict, bind.
  rewrite username_or_none_run. unfold ret at 1. unfold lift.
  rewrite (entity_type_first self _ [] (split_no_sep _ _ H)).
  rewrite (entity_id_no_dot _ H). reflexivity.
Qed.

Ltac dict_lookup := cbn [list_to_map foldr fst snd]; by simplify_map_eq.
Ltac dict_dom :=
  cbn [list_to_map foldr fst snd]; rewrite !dom_insert_L, dom_empty_L;
  set_solver.

(** C3 (as amended): [FeedbackThread.to_dict] and [FeedbackMessage.to_dict]
    put in the place of each author id the resolved display username
    ([None] when the id is absent or empty), and the three [to_dict] give
    one timestamp as milliseconds ([last_updated] of a thread and of a
    summary, [created_on] of a message); [FeedbackThreadSummary.to_dict]
    resolves nothing and gives [original_author_id] as it is stored.  The
    key sets are exactly the ones listed.  [FeedbackMessage.to_dict]
    returns when the id has a ['.'] and only then: on an id without ['.'] it
    raises [IndexError], after the lookup of the author. *)
Theorem to_dict_author_and_timestamp_fields :
  (forall (self : FeedbackThread.t) (w : username_lookups),
    exists d : gmap string PyVal,
      FeedbackThread.to_dict get_username get_time_in_millisecs self w
      = (Ok d,
         (w ++ resolved_ids
                 [FeedbackThread.original_author_id self;
                  FeedbackThread.last_nonempty_message_author_id self])%list)
      /\ d !! "original_author_username"
         = Some (display_username get_username
                   (FeedbackThread.original_author_id self))
      /\ d !! "last_nonempty_message_author"
         = Some (display_username get_username
                   (FeedbackThread.last_nonempty_message_author_id self))
      /\ d !! "last_updated_msecs"
         = Some (VInt (get_time_in_millisecs (FeedbackThread.last_updated self)))
      /\ dom d = {[ "last_updated_msecs"; "original_author_username";
                    "state_name"; "status"; "subject"; "summary"; "thread_id";
                    "message_count"; "last_nonempty_message_text";
                    "last_nonempty_message_author" ]})
  /\ (forall (self : FeedbackMessage.t) (w : username_lookups),
    (contains "." (FeedbackMessage.id self) = true ->
     exists d : gmap string PyVal,
       FeedbackMessage.to_dict get_username get_time_in_millisecs self w
       = (Ok d, (w ++ resolved_ids [FeedbackMessage.author_id self])%list)
       /\ d !! "author_username"
          = Some (display_username get_username (FeedbackMessage.author_id self))
       /\ d !! "created_on_msecs"
          = Some (VInt (get_time_in_millisecs (FeedbackMessage.created_on self)))
       /\ dom d = {[ "author_username"; "created_on_msecs"; "entity_type";
                     "entity_id"; "message_id"; "text"; "updated_status";
                     "updated_subject" ]})
    /\ (contains "." (FeedbackMessage.id self) = false ->
        FeedbackMessage.to_dict get_username get_time_in_millisecs self w
        = (Raise IndexError,
           (w ++ resolved_ids [FeedbackMessage.author_id self])%list))
    /\ (forall (d : gmap string PyVal) (w' : username_lookups),
        FeedbackMessage.to_dict get_username get_time_in_millisecs self w
        = (Ok d, w') ->
        contains "." (FeedbackMessage.id self) = true))
  /\ (forall self : FeedbackThreadSummary.t,
    let d := FeedbackThreadSummary.to_dict get_time_in_millisecs self in
    d !! "original_author_id"
      = Some (of_opt_str (FeedbackThreadSummary.original_author_id self))
    /\ d !! "last_updated_msecs"
      = Some (VInt (get_time_in_millisecs
                      (FeedbackThreadSummary.last_updated self)))
    /\ dom d = {[ "status"; "original_author_id"; "last_updated_msecs";
                  "last_message_text"; "total_message_count";
                  "last_message_is_read"; "second_last_message_is_read";
                  "author_last_message"; "author_second_last_message";
                  "exploration_title"; "exploration_id"; "thread_id" ]}).
Proof.
  split; [|split].
  - intros self w. eexists. split; [apply FeedbackThread_to_dict_run|].
    repeat apply conj; [dict_lookup..|dict_dom].
  - intros self w. split; [|split].
    + intros H.
      destruct (split_with_sep _ _ H) as (seg1 & seg2 & segs & Hs).
      eexists. split; [apply (FeedbackMessage_to_dict_run _ _ _ _ _ Hs)|].
      repeat apply conj; [dict_lookup..|dict_dom].
    + intros H. exact (FeedbackMessage_to_dict_raise _ w H).
    + intros d w' Hrun.
      destruct (contains "." (FeedbackMessage.id self)) eqn:E; [reflexivity|].
      rewrite (FeedbackMessage_to_dict_raise _ w E) in Hrun. discriminate.
  - intros self d. subst d. unfold FeedbackThreadSummary.to_dict.
    repeat apply conj; [dict_lookup..|dict_dom].
Qed.

(** C6: in the result of [FeedbackThread.to_dict] the username key of an
    absent author id is present and bound to [None], and that field causes
    no username lookup (the lookups made are those of the other author
    field).  For a [FeedbackMessage] without author, [to_dict] makes no
    username lookup at all, every dictionary it returns has
    [author_username] present and bound to [None], and it does return one
    when the id has a ['.']. *)
Theorem null_author_id_gives_null_username :
  (forall (self : FeedbackThread.t) (w : username_lookups),
    exists (d : gmap string PyVal) (w' : username_lookups),
      FeedbackThread.to_dict get_username get_time_in_millisecs self w
      = (Ok d, w')
      /\ (FeedbackThread.original_author_id self = None ->
          d !! "original_author_username" = Some VNone
          /\ w' = (w ++ resolved_ids
                     [FeedbackThread.last_nonempty_message_author_id self])%list)
      /\ (FeedbackThread.last_nonempty_message_author_id self = None ->
          d !! "last_nonempty_message_author" = Some VNone
          /\ w' = (w ++ resolved_ids
                     [FeedbackThread.original_author_id self])%list))
  /\ (forall (self : FeedbackMessage.t) (w : username_lookups),
    FeedbackMessage.author_id self = None ->
    snd (FeedbackMessage.to_dict get_username get_time_in_millisecs self w) = w
    /\ (forall (d : gmap string PyVal) (w' : username_lookups),
        FeedbackMessage.to_dict get_username get_time_in_millisecs self w
        = (Ok d, w') ->
        d !! "author_username" = Some VNone /\ w' = w)
    /\ (contains "." (FeedbackMessage.id self) = true ->
        exists d : gmap string PyVal,
          FeedbackMessage.to_dict get_username get_time_in_millisecs self w
          = (Ok d, w))).
Proof.
  split.
  - intros self w. eexists. eexists.
    split; [apply FeedbackThread_to_dict_run|]. split.
    + intros H. rewrite H. split; [dict_lookup|reflexivity].
    + intros H. rewrite H. split; [dict_lookup|].
      rewrite (resolved_ids_cons _ [None]). simpl. rewrite app_nil_r.
      reflexivity.
  - intros self w Hnone.
    destruct (contains "." (FeedbackMessage.id self)) eqn:E.
    + destruct (split_with_sep _ _ E) as (seg1 & seg2 & segs & Hs).
      rewrite (FeedbackMessage_to_dict_run _ w _ _ _ Hs), Hnone.
      simpl resolved_ids. rewrite app_nil_r. repeat apply conj.
      * reflexivity.
      * intros d w' [= <- <-]. split; [dict_lookup|reflexivity].
      * intros _. eexists. reflexivity.
    + rewrite (FeedbackMessage_to_dict_raise _ w E), Hnone.
      simpl resolved_ids. rewrite app_nil_r. repeat apply conj.
      * reflexivity.
      * intros d w' [=].
      * discriminate.
Qed.
End to_dict_runs.

Lemma to_dict_of_well_formed_message :
  (exists d : gmap string PyVal,
      FeedbackMessage.to_dict alice_for_all millisecs_of_day
        (message_of (Some "uid_1") "exploration.abc123.4") []
      = (Ok d, ["uid_1"])
      /\ d !! "author_username" = Some (VStr "alice")
      /\ d !! "created_on_msecs" = Some (VInt 0))
  /\ FeedbackMessage.to_dict alice_for_all millisecs_of_day
       (message_of (Some "uid_1") "abc") []
     = (Raise IndexError, ["uid_1"])
  /\ (exists d : gmap string PyVal,
      FeedbackThread.to_dict alice_for_all millisecs_of_day
        (thread_with_count 1) [] = (Ok d, ["uid_2"])
      /\ d !! "last_nonempty_message_author" = Some (VStr "alice")).
Proof.
  repeat apply conj.
  - destruct (proj1 (proj1 (proj2 (to_dict_author_and_timestamp_fields
                                     alice_for_all millisecs_of_day))
                       (message_of (Some "uid_1") "exploration.abc123.4") [])
                eq_refl)
      as (d & Hrun & Hname & Htime & _).
    exists d. repeat apply conj; [exact Hrun|exact Hname|exact Htime].
  - exact (proj1 (proj2 (proj1 (proj2 (to_dict_author_and_timestamp_fields
                                         alice_for_all millisecs_of_day))
                           (message_of (Some "uid_1") "abc") []))
             eq_refl).
  - destruct (proj1 (to_dict_author_and_timestamp_fields
                       alice_for_all millisecs_of_day)
                (thread_with_count 1) [])
      as (d & Hrun & _ & Hname & _).
    exists d. split; [exact Hrun|exact Hname].
Defined.

(** [FeedbackThreadSummary.to_dict] gives the author id as stored: with every
    id resolving to ["alice"], the summary of ["uid_1"] binds
    [original_author_id] to ["uid_1"] and no key to ["alice"].  And a
    thread created at one o'clock has no key bound to the milliseconds of
    [created_on]. *)
Lemma summary_keeps_original_author_id :
  (let d := FeedbackThreadSummary.to_dict millisecs_of_day summary_of_uid_1 in
   d !! "original_author_id" = Some (VStr "uid_1")
   /\ ~ (exists k, d !! k = Some (VStr (alice_for_all "uid_1"))))
  /\ (exists d : gmap string PyVal,
       fst (FeedbackThread.to_dict alice_for_all millisecs_of_day
              (thread_with_count 1) []) = Ok d
       /\ millisecs_of_day (FeedbackThread.created_on (thread_with_count 1))
          = 3600000
       /\ ~ (exists k, d !! k = Some (VInt 3600000))).
Proof.
  split.
  - intros d. split.
    + vm_compute. reflexivity.
    + intros [k Hk].
      assert (H : map_Forall (fun _ v => v <> VStr "alice") d).
      { apply (bool_decide_unpack _). vm_compute. exact I. }
      exact (H k _ Hk eq_refl).
  - eexists. split; [reflexivity|]. split; [reflexivity|].
    intros [k Hk].
    match type of Hk with ?d !! _ = _ =>
      assert (H : map_Forall (fun _ v => v <> VInt 3600000) d)
    end.
    { apply (bool_decide_unpack _). vm_compute. exact I. }
    exact (H k _ Hk eq_refl).
Qed.

Lemma null_author_id_examples :
  (exists d : gmap string PyVal,
      FeedbackThread.to_dict alice_for_all millisecs_of_day
        (thread_with_count 1) [] = (Ok d, ["uid_2"])
      /\ d !! "original_author_username" = Some VNone)
  /\ (exists d : gmap string PyVal,
      FeedbackMessage.to_dict alice_for_all millisecs_of_day
        (message_with_id "exploration.abc123.4") [] = (Ok d, [])
      /\ d !! "author_username" = Some VNone).
Proof.
  split.
  - destruct (proj1 (null_author_id_gives_null_username
                       alice_for_all millisecs_of_day) (thread_with_count 1) [])
      as (d & w' & Hrun & Hnone & _).
    destruct (Hnone eq_refl) as [Hname Hw].
    exists d. rewrite Hrun, Hw. split; [reflexivity|exact Hname].
  - destruct (proj2 (null_author_id_gives_null_username
                       alice_for_all millisecs_of_day)
                (message_with_id "exploration.abc123.4") [] eq_refl)
      as (_ & Hkey & Hreturns).
    destruct (Hreturns eq_refl) as [d Hrun].
    exists d. split; [exact Hrun|exact (proj1 (Hkey d [] Hrun))].
Defined.

(** ** The improvements handlers *)

Lemma dict_getitem_present (d : gmap string PyVal) (k : string) (v : PyVal) :
  d !! k = Some v -> dict_getitem d k = Ok (default VNone (d !! k)).
Proof. unfold dict_getitem. intros ->. reflexivity. Qed.

Lemma dict_get_default (d : gmap string PyVal) (k : string) (v : PyVal) :
  dict_get d k v = default v (d !! k).
Proof. unfold dict_get. destruct (d !! k); reflexivity. Qed.

Lemma has_required_keys_lookup (task_entry : gmap string PyVal) :
  has_required_keys task_entry = true ->
  is_Some (task_entry !! "entity_version")
  /\ is_Some (task_entry !! "task_type")
  /\ is_Some (task_entry !! "target_id")
  /\ is_Some (task_entry !! "status").
Proof.
  unfold has_required_keys.
  destruct (task_entry !! "entity_version"), (task_entry !! "task_type"),
    (task_entry !! "target_id"), (task_entry !! "status");
    try discriminate.
  intros _. repeat split; eauto.
Qed.

Section improvements_handlers.
Variable TASK_ENTITY_TYPE_EXPLORATION : string.
Variable TASK_TARGET_TYPE_STATE : string.
Variable clock : nat -> datetime.
Variable get_exploration_by_id : string -> result Exploration.
Variable IS_IMPROVEMENTS_TAB_ENABLED : PyVal.
Variable HIGH_BOUNCE_RATE_TASK_STATE_BOUNCE_RATE_CREATION_THRESHOLD : PyVal.
Variable HIGH_BOUNCE_RATE_TASK_STATE_BOUNCE_RATE_OBSOLETION_THRESHOLD : PyVal.
Variable HIGH_BOUNCE_RATE_TASK_MINIMUM_EXPLORATION_STARTS : PyVal.

(** The loop appends to the list built so far one task entry per item, in
    the order of the items, reading the clock once for each. *)
Lemma post_loop_run (self : handler) (exploration_id : string)
    (task_entries : list (gmap string PyVal)) :
  Forall (fun item => has_required_keys item = true) task_entries ->
  forall (task_entries_to_put : list TaskEntry) (w : world),
    post_loop TASK_ENTITY_TYPE_EXPLORATION TASK_TARGET_TYPE_STATE clock
      self exploration_id task_entries task_entries_to_put w
    = (Ok (task_entries_to_put
           ++ imap (expected_task TASK_ENTITY_TYPE_EXPLORATION TASK_TARGET_TYPE_STATE clock
         self exploration_id (utcnow_calls w))
                task_entries)%list,
       {| utcnow_calls := (utcnow_calls w + List.length task_entries)%nat;
          put_tasks_calls := put_tasks_calls w;
          rendered := rendered w |}).
Proof.
  induction 1 as [|item rest Hitem _ IH]; intros acc w.
  - simpl. unfold ret. rewrite app_nil_r, Nat.add_0_r. destruct w; reflexivity.
  - destruct (has_required_keys_lookup _ Hitem)
      as ([v1 H1] & [v2 H2] & [v3 H3] & [v4 H4]).
    cbn [post_loop]. unfold bind, lift.
    rewrite (dict_getitem_present _ _ _ H1), (dict_getitem_present _ _ _ H2),
      (dict_getitem_present _ _ _ H3), (dict_getitem_present _ _ _ H4).
    unfold utcnow at 1. rewrite IH. cbn [utcnow_calls put_tasks_calls rendered].
    rewrite dict_get_default, <- app_assoc. cbn [imap app List.length].
    f_equal.
    + do 3 f_equal.
      * unfold expected_task, task_entry_of_item. rewrite Nat.add_0_r.
        reflexivity.
      * apply imap_ext. intros i x _. unfold expected_task. simpl.
        do 2 f_equal. lia.
    + f_equal. lia.
Qed.

(** C7: on a request whose [task_entries] is a list of [k] items that have
    the required keys, [post] hands to [put_tasks] one batch, which holds
    one task entry per item, in order, with the exploration entity type,
    the exploration id of the request, the state target type, the target id
    of the item and its [issue_description], which is [None] when the item
    has none; then it renders the empty JSON object.  For the empty list
    the batch is empty. *)
Theorem post_builds_and_submits (self : handler) (exploration_id : string)
    (task_entries : list (gmap string PyVal)) (w : world) :
  normalized_payload self !! "task_entries" = Some (ArgDicts task_entries) ->
  Forall (fun item => has_required_keys item = true) task_entries ->
  exists batch : list TaskEntry,
    post TASK_ENTITY_TYPE_EXPLORATION TASK_TARGET_TYPE_STATE clock
      self exploration_id w
    = (Ok tt,
       {| utcnow_calls := (utcnow_calls w + List.length task_entries)%nat;
          put_tasks_calls := (put_tasks_calls w ++ [batch])%list;
          rendered := (rendered w ++ [∅])%list |})
    /\ List.length batch = List.length task_entries
    /\ Forall2
         (fun item task =>
            entity_type task = TASK_ENTITY_TYPE_EXPLORATION
            /\ entity_id task = exploration_id
            /\ target_type task = TASK_TARGET_TYPE_STATE
            /\ item !! "target_id" = Some (target_id task)
            /\ item !! "entity_version" = Some (entity_version task)
            /\ item !! "task_type" = Some (task_type task)
            /\ item !! "status" = Some (status task)
            /\ issue_description task
               = default VNone (item !! "issue_description")
            /\ resolver_id task = user_id self)
         task_entries batch
    /\ (task_entries = [] -> batch = []).
Proof.
  intros Hpayload Hvalid.
  exists (imap (expected_task TASK_ENTITY_TYPE_EXPLORATION TASK_TARGET_TYPE_STATE clock
         self exploration_id (utcnow_calls w)) task_entries).
  repeat apply conj.
  - unfold post, bind. rewrite Hpayload. unfold ret at 1.
    rewrite (post_loop_run _ _ _ Hvalid). reflexivity.
  - apply length_imap.
  - clear Hpayload. generalize (utcnow_calls w) as first.
    induction Hvalid as [|item rest Hitem _ IH]; intros first; [constructor|].
    cbn [imap]. constructor.
    + destruct (has_required_keys_lookup _ Hitem)
        as ([v1 H1] & [v2 H2] & [v3 H3] & [v4 H4]).
      unfold expected_task, task_entry_of_item. simpl.
      rewrite H1, H2, H3, H4. repeat apply conj; reflexivity.
    + rewrite (imap_ext _ (expected_task TASK_ENTITY_TYPE_EXPLORATION TASK_TARGET_TYPE_STATE clock
         self exploration_id (S first)));
        [apply IH|].
      intros i x _. unfold expected_task. simpl. do 2 f_equal. lia.
  - intros ->. reflexivity.
Qed.

(** C8: a GET on the config endpoint succeeds exactly when the exploration
    is fetched, and then renders one JSON object with exactly the six keys
    [exploration_id], [exploration_version], [is_improvements_tab_enabled]
    and the three high bounce rate thresholds: the first is the path
    argument, the second the version of the fetched exploration, the others
    the values of the configuration registry. *)
Theorem config_get_response (exploration_id : string) (w w' : world) :
  get get_exploration_by_id IS_IMPROVEMENTS_TAB_ENABLED
    HIGH_BOUNCE_RATE_TASK_STATE_BOUNCE_RATE_CREATION_THRESHOLD
    HIGH_BOUNCE_RATE_TASK_STATE_BOUNCE_RATE_OBSOLETION_THRESHOLD
    HIGH_BOUNCE_RATE_TASK_MINIMUM_EXPLORATION_STARTS exploration_id w
  = (Ok tt, w') ->
  exists (exploration : Exploration) (d : gmap string PyVal),
    get_exploration_by_id exploration_id = Ok exploration
    /\ w' = {| utcnow_calls := utcnow_calls w;
               put_tasks_calls := put_tasks_calls w;
               rendered := (rendered w ++ [d])%list |}
    /\ dom d
       = {[ "exploration_id"; "exploration_version";
            "is_improvements_tab_enabled";
            "high_bounce_rate_task_state_bounce_rate_creation_threshold";
            "high_bounce_rate_task_state_bounce_rate_obsoletion_threshold";
            "high_bounce_rate_task_minimum_exploration_starts" ]}
    /\ d !! "exploration_id" = Some (VStr exploration_id)
    /\ d !! "exploration_version" = Some (VInt (version exploration))
    /\ d !! "is_improvements_tab_enabled" = Some IS_IMPROVEMENTS_TAB_ENABLED
    /\ d !! "high_bounce_rate_task_state_bounce_rate_creation_threshold"
       = Some HIGH_BOUNCE_RATE_TASK_STATE_BOUNCE_RATE_CREATION_THRESHOLD
    /\ d !! "high_bounce_rate_task_state_bounce_rate_obsoletion_threshold"
       = Some HIGH_BOUNCE_RATE_TASK_STATE_BOUNCE_RATE_OBSOLETION_THRESHOLD
    /\ d !! "high_bounce_rate_task_minimum_exploration_starts"
       = Some HIGH_BOUNCE_RATE_TASK_MINIMUM_EXPLORATION_STARTS.
Proof.
  unfold get, bind, lift.
  destruct (get_exploration_by_id exploration_id) as [exploration|e];
    [|discriminate].
  unfold render_json. intros [= <-].
  exists exploration. eexists. repeat apply conj; [reflexivity|reflexivity|..].
  - cbn [list_to_map foldr fst snd]. rewrite !dom_insert_L, dom_empty_L.
    set_solver.
  - cbn [list_to_map foldr fst snd]. by simplify_map_eq.
  - cbn [list_to_map foldr fst snd]. by simplify_map_eq.
  - cbn [list_to_map foldr fst snd]. by simplify_map_eq.
  - cbn [list_to_map foldr fst snd]. by simplify_map_eq.
  - cbn [list_to_map foldr fst snd]. by simplify_map_eq.
  - cbn [list_to_map foldr fst snd]. by simplify_map_eq.
Qed.

(** The GET goes through whenever the exploration is there. *)
Lemma config_get_succeeds (exploration_id : string) (exploration : Exploration)
    (w : world) :
  get_exploration_by_id exploration_id = Ok exploration ->
  exists w',
    get get_exploration_by_id IS_IMPROVEMENTS_TAB_ENABLED
      HIGH_BOUNCE_RATE_TASK_STATE_BOUNCE_RATE_CREATION_THRESHOLD
      HIGH_BOUNCE_RATE_TASK_STATE_BOUNCE_RATE_OBSOLETION_THRESHOLD
      HIGH_BOUNCE_RATE_TASK_MINIMUM_EXPLORATION_STARTS exploration_id w
    = (Ok tt, w').
Proof.
  intros H. unfold get, bind, lift. rewrite H. unfold render_json. eauto.
Qed.
End improvements_handlers.

Lemma post_two_items_and_none :
  (exists batch : list TaskEntry,
      post "exploration" "state" clock_of_seconds
        (handler_with [item_bounce; item_answers]) "abc123" fresh_world
      = (Ok tt,
         {| utcnow_calls := 2;
            put_tasks_calls := [batch];
            rendered := [∅] |})
      /\ List.length batch = 2%nat)
  /\ post "exploration" "state" clock_of_seconds
       (handler_with []) "abc123" fresh_world
     = (Ok tt,
        {| utcnow_calls := 0;
           put_tasks_calls := [[]];
           rendered := [∅] |}).
Proof.
  split.
  - assert (Hvalid : Forall (fun item => has_required_keys item = true)
                       [item_bounce; item_answers])
      by (repeat constructor).
    destruct (post_builds_and_submits "exploration" "state" clock_of_seconds
                (handler_with [item_bounce; item_answers]) "abc123"
                [item_bounce; item_answers] fresh_world eq_refl Hvalid)
      as (batch & Hrun & Hlen & _).
    exists batch. split; [exact Hrun|exact Hlen].
  - destruct (post_builds_and_submits "exploration" "state" clock_of_seconds
                (handler_with []) "abc123" [] fresh_world eq_refl
                (List.Forall_nil _))
      as (batch & Hrun & _ & _ & Hnil).
    rewrite Hrun, (Hnil eq_refl). reflexivity.
Defined.

Lemma config_get_abc123 :
  exists (exploration : Exploration) (d : gmap string PyVal),
    fetch_abc123 "abc123" = Ok exploration
    /\ d !! "exploration_id" = Some (VStr "abc123")
    /\ d !! "exploration_version" = Some (VInt 7).
Proof.
  destruct (config_get_response fetch_abc123 (VBool true) (VInt 20) (VInt 20)
              (VInt 100) "abc123" fresh_world
              {| utcnow_calls := 0;
                 put_tasks_calls := [];
                 rendered := [list_to_map [
                   ("exploration_id", VStr "abc123");
                   ("exploration_version", VInt 7);
                   ("is_improvements_tab_enabled", VBool true);
                   ("high_bounce_rate_task_state_bounce_rate_creation_threshold",
                     VInt 20);
                   ("high_bounce_rate_task_state_bounce_rate_obsoletion_threshold",
                     VInt 20);
                   ("high_bounce_rate_task_minimum_exploration_starts",
                     VInt 100)]] |}
              eq_refl)
    as (exploration & d & Hfetch & _ & _ & Hid & Hversion & _).
  exists exploration, d. repeat apply conj; [exact Hfetch|exact Hid|].
  rewrite Hversion. vm_compute in Hfetch. injection Hfetch as <-.
  reflexivity.
Defined.

(** * Further properties *)

(** ** Splitting, joining and the decimal rendering *)

Lemma split_sep_free (sep : ascii) (s : string) :
  Forall (fun seg => contains sep seg = false) (split sep s).
Proof.
  induction s as [|c s IH]; simpl.
  - repeat constructor.
  - destruct (Ascii.eqb c sep) eqn:E.
    + constructor; [reflexivity|exact IH].
    + destruct (split sep s) as [|seg segs].
      * repeat constructor. simpl. rewrite E. reflexivity.
      * inversion IH as [|? ? Hseg Hsegs]; subst.
        constructor; [|exact Hsegs]. simpl. rewrite E. exact Hseg.
Qed.

Lemma join_split (sep : ascii) (s : string) :
  join (String sep EmptyString) (split sep s) = s.
Proof.
  induction s as [|c s IH]; simpl; [reflexivity|].
  destruct (Ascii.eqb_spec c sep) as [->|Hne].
  - destruct (split_cons sep s) as (seg & segs & Hs).
    rewrite Hs in *. simpl in *. rewrite IH. reflexivity.
  - destruct (split_cons sep s) as (seg & segs & Hs).
    rewrite Hs in *. destruct segs as [|seg' segs]; simpl in *;
      rewrite <- IH; reflexivity.
Qed.

Lemma split_app (sep : ascii) (s r : string) :
  split sep (s ++ String sep r)%string = (split sep s ++ split sep r)%list.
Proof.
  induction s as [|c s IH]; simpl.
  - rewrite Ascii.eqb_refl. reflexivity.
  - destruct (Ascii.eqb c sep); rewrite IH; [reflexivity|].
    destruct (split_cons sep s) as (seg & segs & ->). reflexivity.
Qed.

Lemma string_of_uint_no_dot (d : Decimal.uint) :
  contains "." (NilEmpty.string_of_uint d) = false.
Proof. induction d; simpl; auto. Qed.

Lemma UNICODE_no_dot (i : Z) : contains "." (UNICODE i) = false.
Proof.
  unfold UNICODE, NilZero.string_of_int, NilZero.string_of_uint.
  destruct (Z.to_int i) as [d|d]; destruct d; simpl;
    try reflexivity; apply string_of_uint_no_dot.
Qed.

Lemma getitem_last {A : Type} (l : list A) (x : A) :
  getitem (l ++ [x]) (-1) = Ok x.
Proof.
  unfold getitem. cbn zeta. change (-1 <? 0) with true. cbn iota beta.
  rewrite length_app. simpl List.length.
  replace (-1 + Z.of_nat (List.length l + 1)) with (Z.of_nat (List.length l))
    by lia.
  destruct (Z.ltb_spec (Z.of_nat (List.length l)) 0) as [H|_]; [lia|].
  destruct (Z.leb_spec (Z.of_nat (List.length l + 1)) (Z.of_nat (List.length l)))
    as [H|_]; [lia|].
  simpl orb. cbn iota. rewrite Nat2Z.id.
  rewrite nth_error_app2 by lia. rewrite Nat.sub_diag. reflexivity.
Qed.

Lemma append_inj_l (s r1 r2 : string) :
  (s ++ r1)%string = (s ++ r2)%string -> r1 = r2.
Proof. induction s as [|c s IH]; simpl; [auto|]. intros [= H]. auto. Qed.

(** ** Full message ids *)

Section full_message_ids.
Import FeedbackThread.

Lemma full_message_id_split (self : t) (i : Z) :
  split "." (_get_full_message_id self i)
  = (split "." (id self) ++ [UNICODE i])%list.
Proof.
  unfold _get_full_message_id. simpl join.
  change ("." ++ UNICODE i)%string with (String "." (UNICODE i)).
  rewrite split_app, (split_no_sep _ _ (UNICODE_no_dot i)). reflexivity.
Qed.

(** X1: the full message id splits into the segments of the thread id
    followed by the decimal message id, so its last segment is the message
    id, and reading it as a number gives the message id back. *)
Theorem full_message_id_last_segment (self : t) (i : Z) :
  split "." (_get_full_message_id self i)
  = (split "." (id self) ++ [UNICODE i])%list
  /\ exists last,
      getitem (split "." (_get_full_message_id self i)) (-1) = Ok last
      /\ option_map Z.of_int (NilZero.int_of_string last) = Some i.
Proof.
  split; [apply full_message_id_split|].
  exists (UNICODE i). rewrite full_message_id_split, getitem_last.
  split; [reflexivity|apply UNICODE_read_back].
Qed.

(** X2: a full message id determines the thread id and the message id it
    was built from. *)
Theorem full_message_id_injective (self other : t) (i j : Z) :
  _get_full_message_id self i = _get_full_message_id other j ->
  id self = id other /\ i = j.
Proof.
  intros H. apply (f_equal (split ".")) in H.
  rewrite !full_message_id_split in H.
  apply app_inj_tail in H as [Hsegs Hlast].
  split.
  - rewrite <- (join_split "." (id self)), <- (join_split "." (id other)), Hsegs.
    reflexivity.
  - apply UNICODE_inj. exact Hlast.
Qed.

Lemma get_last_two_message_ids_slots (self : t) :
  get_last_two_message_ids self
  = [ (if 0 <=? message_count self - 1
       then Some (_get_full_message_id self (message_count self - 1))
       else None);
      (if 0 <=? message_count self - 2
       then Some (_get_full_message_id self (message_count self - 2))
       else None) ].
Proof. unfold get_last_two_message_ids. rewrite range_last_two. reflexivity. Qed.

(** X3: on a thread with at least two messages the two ids returned are
    both present and differ. *)
Theorem last_two_message_ids_distinct (self : t) :
  2 <= message_count self ->
  exists last second_last,
    get_last_two_message_ids self = [Some last; Some second_last]
    /\ last <> second_last.
Proof.
  intros Hn. rewrite get_last_two_message_ids_slots.
  destruct (Z.leb_spec 0 (message_count self - 1)); [|lia].
  destruct (Z.leb_spec 0 (message_count self - 2)); [|lia].
  eexists. eexists. split; [reflexivity|].
  intros Heq. apply (f_equal (split ".")) in Heq.
  rewrite !full_message_id_split in Heq.
  apply app_inj_tail in Heq as [_ Hlast]. apply UNICODE_inj in Hlast. lia.
Qed.

(** X4: when a message is added to a thread, the id that was last becomes
    the second last: the second slot for [n + 1] messages is the first slot
    for [n] messages. *)
Theorem last_two_message_ids_shift (self longer : t) :
  id longer = id self ->
  message_count longer = message_count self + 1 ->
  get_last_two_message_ids longer !! 1%nat
  = get_last_two_message_ids self !! 0%nat.
Proof.
  intros Hid Hcount. rewrite !get_last_two_message_ids_slots. simpl.
  rewrite Hcount. unfold _get_full_message_id. rewrite Hid.
  replace (message_count self + 1 - 2) with (message_count self - 1) by lia.
  reflexivity.
Qed.
End full_message_ids.

Lemma full_message_id_of_same_thread :
  FeedbackThread.id (thread_with_count 1) = FeedbackThread.id (thread_with_count 5)
  /\ 3 = 3.
Proof.
  exact (full_message_id_injective (thread_with_count 1) (thread_with_count 5)
           3 3 eq_refl).
Defined.

Lemma last_two_message_ids_of_two :
  exists last second_last,
    FeedbackThread.get_last_two_message_ids (thread_with_count 2)
    = [Some last; Some second_last]
    /\ last <> second_last.
Proof.
  apply (last_two_message_ids_distinct (thread_with_count 2)). simpl. lia.
Defined.

Lemma last_two_message_ids_from_one_to_two :
  FeedbackThread.get_last_two_message_ids (thread_with_count 2) !! 1%nat
  = FeedbackThread.get_last_two_message_ids (thread_with_count 1) !! 0%nat.
Proof.
  apply (last_two_message_ids_shift (thread_with_count 1) (thread_with_count 2));
    reflexivity.
Defined.

(** ** More on the derived properties of a message *)

Lemma string_app_assoc (a b c : string) :
  ((a ++ b) ++ c)%string = (a ++ b ++ c)%string.
Proof.
  induction a as [|x a IH]; [reflexivity|].
  change (String x ((a ++ b) ++ c) = String x (a ++ b ++ c))%string.
  f_equal. exact IH.
Qed.

Lemma string_app_empty_r (a : string) : (a ++ "")%string = a.
Proof.
  induction a as [|x a IH]; [reflexivity|].
  change (String x (a ++ "")%string = String x a). f_equal. exact IH.
Qed.

Lemma getitem_In {A : Type} (l : list A) (i : Z) (x : A) :
  getitem l i = Ok x -> In x l.
Proof.
  unfold getitem. cbn zeta.
  destruct (_ || _); [discriminate|].
  destruct (nth_error l _) eqn:E; [|discriminate].
  intros [= <-]. exact (nth_error_In _ _ E).
Qed.

Lemma join_cons_prefix (sep seg : string) (segs : list string) :
  exists rest, join sep (seg :: segs) = (seg ++ rest)%string.
Proof.
  destruct segs as [|seg' segs]; simpl.
  - exists EmptyString. symmetry. apply string_app_empty_r.
  - eauto.
Qed.

Section FeedbackMessage_more.
Import FeedbackMessage.

(** X5: on a message whose id is a full message id of a thread, neither
    derived property raises: they are the first two segments of the thread
    id; when the thread id has no ['.'], [entity_type] is the thread id and
    [entity_id] is the decimal message id. *)
Theorem derived_fields_of_thread_message (thread : FeedbackThread.t) (i : Z)
    (self : t) :
  id self = FeedbackThread._get_full_message_id thread i ->
  (contains "." (FeedbackThread.id thread) = false ->
   entity_type self = Ok (FeedbackThread.id thread)
   /\ entity_id self = Ok (UNICODE i))
  /\ (forall seg1 seg2 segs,
       split "." (FeedbackThread.id thread) = seg1 :: seg2 :: segs ->
       entity_type self = Ok seg1 /\ entity_id self = Ok seg2).
Proof.
  intros Hid.
  assert (Hs : split "." (id self)
               = (split "." (FeedbackThread.id thread) ++ [UNICODE i])%list)
    by (rewrite Hid; apply full_message_id_split).
  split.
  - intros Hno. rewrite (split_no_sep _ _ Hno) in Hs. simpl in Hs. split.
    + exact (entity_type_first _ _ _ Hs).
    + exact (entity_id_second _ _ _ _ Hs).
  - intros seg1 seg2 segs Hthread. rewrite Hthread in Hs. simpl in Hs. split.
    + exact (entity_type_first _ _ _ Hs).
    + exact (entity_id_second _ _ _ _ Hs).
Qed.

(** X6: whatever the id, a derived property that returns gives a string
    without ['.']. *)
Theorem derived_fields_have_no_dot (self : t) (seg : string) :
  entity_type self = Ok seg \/ entity_id self = Ok seg ->
  contains "." seg = false.
Proof.
  pose proof (split_sep_free "." (id self)) as Hfree.
  rewrite List.Forall_forall in Hfree.
  intros [H|H]; apply Hfree; exact (getitem_In _ _ _ H).
Qed.

(** X7: the id of a message starts with its [entity_type], and, when
    [entity_id] returns, with [entity_type], a ['.'] and [entity_id]. *)
Theorem id_starts_with_derived_fields (self : t) (a : string) :
  entity_type self = Ok a ->
  startswith (id self) a = true
  /\ (forall b, entity_id self = Ok b ->
        startswith (id self) (a ++ "." ++ b) = true).
Proof.
  intros Ha. split.
  - destruct (split_cons "." (id self)) as (seg & segs & Hs).
    rewrite (entity_type_first _ _ _ Hs) in Ha. injection Ha as <-.
    apply startswith_spec.
    destruct (join_cons_prefix "." seg segs) as [rest Hrest].
    exists rest. rewrite <- Hrest, <- Hs. symmetry. apply join_split.
  - intros b Hb.
    destruct (contains "." (id self)) eqn:E.
    + destruct (split_with_sep _ _ E) as (seg1 & seg2 & segs & Hs).
      rewrite (entity_type_first _ _ _ Hs) in Ha. injection Ha as <-.
      rewrite (entity_id_second _ _ _ _ Hs) in Hb. injection Hb as <-.
      apply startswith_spec.
      destruct (join_cons_prefix "." seg2 segs) as [rest Hrest].
      exists rest. rewrite <- (join_split "." (id self)), Hs.
      change (join "." (seg1 :: seg2 :: segs))
        with (seg1 ++ "." ++ join "." (seg2 :: segs))%string.
      rewrite Hrest, !string_app_assoc. reflexivity.
    + rewrite (entity_id_no_dot _ E) in Hb. discriminate.
Qed.
End FeedbackMessage_more.

Lemma derived_fields_of_first_message :
  FeedbackMessage.entity_type (message_with_id "exploration.abc123.t1.0")
  = Ok "exploration"
  /\ FeedbackMessage.entity_id (message_with_id "exploration.abc123.t1.0")
  = Ok "abc123".
Proof.
  apply (proj2 (derived_fields_of_thread_message (thread_with_count 1) 0
                  (message_with_id "exploration.abc123.t1.0") eq_refl)
           "exploration" "abc123" ["t1"]).
  reflexivity.
Defined.

Lemma derived_fields_have_no_dot_example : contains "." "abc123" = false.
Proof.
  apply (derived_fields_have_no_dot (message_with_id "exploration.abc123.4")).
  right. reflexivity.
Defined.

Lemma id_starts_with_derived_fields_example :
  startswith "exploration.abc123.4" "exploration" = true
  /\ startswith "exploration.abc123.4" "exploration.abc123" = true.
Proof.
  destruct (id_starts_with_derived_fields
              (message_with_id "exploration.abc123.4") "exploration" eq_refl)
    as [Htype Hid].
  split; [exact Htype|exact (Hid "abc123" eq_refl)].
Defined.

(** ** More on the [to_dict] projections *)

Ltac lookup_in_dict := cbn [list_to_map foldr fst snd]; by simplify_map_eq.

Lemma of_opt_str_inj (o1 o2 : option string) :
  of_opt_str o1 = of_opt_str o2 -> o1 = o2.
Proof. destruct o1, o2; simpl; congruence. Qed.

Section to_dict_more.
Variable get_username : string -> string.
Variable get_time_in_millisecs : datetime -> Z.

(** X8: on a message with an author whose id has no ['.'], [to_dict] raises
    [IndexError] only after it has resolved the username of the author: the
    lookup is made although no dictionary comes back. *)
Theorem message_to_dict_resolves_before_raising (self : FeedbackMessage.t)
    (w : username_lookups) (user_id : string) :
  FeedbackMessage.author_id self = Some user_id ->
  user_id <> "" ->
  contains "." (FeedbackMessage.id self) = false ->
  FeedbackMessage.to_dict get_username get_time_in_millisecs self w
  = (Raise IndexError, (w ++ [user_id])%list).
Proof.
  intros Hauthor Hne Hno.
  rewrite (FeedbackMessage_to_dict_raise _ _ _ _ Hno), Hauthor.
  destruct user_id; [congruence|reflexivity].
Qed.

(** X9: an author id that is the empty string counts as absent: the username
    key is bound to [None] and no lookup is made for it, in
    [FeedbackThread.to_dict] as in [FeedbackMessage.to_dict]. *)
Theorem empty_author_id_is_absent :
  (forall (self : FeedbackThread.t) (w : username_lookups),
    FeedbackThread.original_author_id self = Some "" ->
    exists d : gmap string PyVal,
      FeedbackThread.to_dict get_username get_time_in_millisecs self w
      = (Ok d,
         (w ++ resolved_ids
                 [FeedbackThread.last_nonempty_message_author_id self])%list)
      /\ d !! "original_author_username" = Some VNone)
  /\ (forall (self : FeedbackMessage.t) (w : username_lookups),
    FeedbackMessage.author_id self = Some "" ->
    contains "." (FeedbackMessage.id self) = true ->
    exists d : gmap string PyVal,
      FeedbackMessage.to_dict get_username get_time_in_millisecs self w
      = (Ok d, w)
      /\ d !! "author_username" = Some VNone).
Proof.
  split.
  - intros self w H. eexists. rewrite FeedbackThread_to_dict_run, H.
    split; [reflexivity|lookup_in_dict].
  - intros self w H Hdot.
    destruct (split_with_sep _ _ Hdot) as (seg1 & seg2 & segs & Hs).
    eexists. rewrite (FeedbackMessage_to_dict_run _ _ _ w _ _ _ Hs), H.
    simpl resolved_ids. rewrite app_nil_r. split; [reflexivity|lookup_in_dict].
Qed.
End to_dict_more.

(** What each key of the dictionary of a thread summary is bound to. *)
Lemma summary_to_dict_lookups (get_time_in_millisecs : datetime -> Z)
    (self : FeedbackThreadSummary.t) :
  let d := FeedbackThreadSummary.to_dict get_time_in_millisecs self in
  d !! "status" = Some (VStr (FeedbackThreadSummary.status self))
  /\ d !! "original_author_id"
     = Some (of_opt_str (FeedbackThreadSummary.original_author_id self))
  /\ d !! "last_updated_msecs"
     = Some (VInt (get_time_in_millisecs
                     (FeedbackThreadSummary.last_updated self)))
  /\ d !! "last_message_text"
     = Some (of_opt_str (FeedbackThreadSummary.last_message_text self))
  /\ d !! "total_message_count"
     = Some (VInt (FeedbackThreadSummary.total_message_count self))
  /\ d !! "last_message_is_read"
     = Some (VBool (FeedbackThreadSummary.last_message_is_read self))
  /\ d !! "second_last_message_is_read"
     = Some (VBool (FeedbackThreadSummary.second_last_message_is_read self))
  /\ d !! "author_last_message"
     = Some (of_opt_str (FeedbackThreadSummary.author_last_message self))
  /\ d !! "author_second_last_message"
     = Some (of_opt_str (FeedbackThreadSummary.author_second_last_message self))
  /\ d !! "exploration_title"
     = Some (VStr (FeedbackThreadSummary.exploration_title self))
  /\ d !! "exploration_id"
     = Some (VStr (FeedbackThreadSummary.exploration_id self))
  /\ d !! "thread_id" = Some (VStr (FeedbackThreadSummary.thread_id self)).
Proof.
  intros d. subst d. unfold FeedbackThreadSummary.to_dict.
  repeat apply conj; lookup_in_dict.
Qed.

(** X12: the dictionary of a thread summary keeps every field: two
    summaries with the same dictionary agree on all fields, on
    [last_updated] up to its milliseconds. *)
Theorem summary_to_dict_keeps_fields (get_time_in_millisecs : datetime -> Z)
    (s1 s2 : FeedbackThreadSummary.t) :
  FeedbackThreadSummary.to_dict get_time_in_millisecs s1
  = FeedbackThreadSummary.to_dict get_time_in_millisecs s2 ->
  FeedbackThreadSummary.status s1 = FeedbackThreadSummary.status s2
  /\ FeedbackThreadSummary.original_author_id s1
     = FeedbackThreadSummary.original_author_id s2
  /\ get_time_in_millisecs (FeedbackThreadSummary.last_updated s1)
     = get_time_in_millisecs (FeedbackThreadSummary.last_updated s2)
  /\ FeedbackThreadSummary.last_message_text s1
     = FeedbackThreadSummary.last_message_text s2
  /\ FeedbackThreadSummary.total_message_count s1
     = FeedbackThreadSummary.total_message_count s2
  /\ FeedbackThreadSummary.last_message_is_read s1
     = FeedbackThreadSummary.last_message_is_read s2
  /\ FeedbackThreadSummary.second_last_message_is_read s1
     = FeedbackThreadSummary.second_last_message_is_read s2
  /\ FeedbackThreadSummary.author_last_message s1
     = FeedbackThreadSummary.author_last_message s2
  /\ FeedbackThreadSummary.author_second_last_message s1
     = FeedbackThreadSummary.author_second_last_message s2
  /\ FeedbackThreadSummary.exploration_title s1
     = FeedbackThreadSummary.exploration_title s2
  /\ FeedbackThreadSummary.exploration_id s1
     = FeedbackThreadSummary.exploration_id s2
  /\ FeedbackThreadSummary.thread_id s1 = FeedbackThreadSummary.thread_id s2.
Proof.
  intros H.
  destruct (summary_to_dict_lookups get_time_in_millisecs s1)
    as (A1 & A2 & A3 & A4 & A5 & A6 & A7 & A8 & A9 & A10 & A11 & A12).
  destruct (summary_to_dict_lookups get_time_in_millisecs s2)
    as (B1 & B2 & B3 & B4 & B5 & B6 & B7 & B8 & B9 & B10 & B11 & B12).
  rewrite H in A1, A2, A3, A4, A5, A6, A7, A8, A9, A10, A11, A12.
  repeat apply conj; try apply of_opt_str_inj; congruence.
Qed.

Lemma analytics_to_dict_lookups (self : FeedbackAnalytics.t) :
  FeedbackAnalytics.to_dict self !! "num_open_threads"
  = Some (VInt (FeedbackAnalytics.num_open_threads self))
  /\ FeedbackAnalytics.to_dict self !! "num_total_threads"
     = Some (VInt (FeedbackAnalytics.num_total_threads self)).
Proof. unfold FeedbackAnalytics.to_dict. split; lookup_in_dict. Qed.

(** X10: the dictionary of a [FeedbackAnalytics] holds the two counters
    only: two objects have the same dictionary exactly when their counters
    agree, whatever entities they are about. *)
Theorem analytics_to_dict_is_the_counters (a b : FeedbackAnalytics.t) :
  FeedbackAnalytics.to_dict a = FeedbackAnalytics.to_dict b
  <-> FeedbackAnalytics.num_open_threads a = FeedbackAnalytics.num_open_threads b
      /\ FeedbackAnalytics.num_total_threads a
         = FeedbackAnalytics.num_total_threads b.
Proof.
  split.
  - intros H.
    destruct (analytics_to_dict_lookups a) as [A1 A2].
    destruct (analytics_to_dict_lookups b) as [B1 B2].
    rewrite H in A1, A2. split; congruence.
  - intros [Hopen Htotal]. unfold FeedbackAnalytics.to_dict.
    rewrite Hopen, Htotal. reflexivity.
Qed.

Lemma reference_to_dict_lookups (self : FeedbackMessageReference.t) :
  FeedbackMessageReference.to_dict self !! "entity_type"
  = Some (VStr (FeedbackMessageReference.entity_type self))
  /\ FeedbackMessageReference.to_dict self !! "entity_id"
     = Some (VStr (FeedbackMessageReference.entity_id self))
  /\ FeedbackMessageReference.to_dict self !! "thread_id"
     = Some (VStr (FeedbackMessageReference.thread_id self))
  /\ FeedbackMessageReference.to_dict self !! "message_id"
     = Some (FeedbackMessageReference.message_id self).
Proof.
  unfold FeedbackMessageReference.to_dict. repeat apply conj; lookup_in_dict.
Qed.

(** X11: the dictionary of a [FeedbackMessageReference] loses nothing: two
    references with the same dictionary are the same reference. *)
Theorem reference_to_dict_injective (r1 r2 : FeedbackMessageReference.t) :
  FeedbackMessageReference.to_dict r1 = FeedbackMessageReference.to_dict r2 ->
  r1 = r2.
Proof.
  intros H.
  destruct (reference_to_dict_lookups r1) as (A1 & A2 & A3 & A4).
  destruct (reference_to_dict_lookups r2) as (B1 & B2 & B3 & B4).
  rewrite H in A1, A2, A3, A4.
  destruct r1, r2. simpl in *. congruence.
Qed.

Lemma message_to_dict_resolves_before_raising_example :
  FeedbackMessage.to_dict alice_for_all millisecs_of_day
    (message_of (Some "uid_1") "abc") ["uid_0"]
  = (Raise IndexError, ["uid_0"; "uid_1"]).
Proof.
  apply (message_to_dict_resolves_before_raising alice_for_all millisecs_of_day
           (message_of (Some "uid_1") "abc") ["uid_0"] "uid_1");
    [reflexivity|discriminate|reflexivity].
Defined.

Lemma empty_author_id_examples :
  (exists d : gmap string PyVal,
      FeedbackThread.to_dict alice_for_all millisecs_of_day
        (thread_of_author (Some "")) [] = (Ok d, ["uid_2"])
      /\ d !! "original_author_username" = Some VNone)
  /\ (exists d : gmap string PyVal,
      FeedbackMessage.to_dict alice_for_all millisecs_of_day
        (message_of (Some "") "exploration.abc123.4") [] = (Ok d, [])
      /\ d !! "author_username" = Some VNone).
Proof.
  split.
  - exact (proj1 (empty_author_id_is_absent alice_for_all millisecs_of_day)
             (thread_of_author (Some "")) [] eq_refl).
  - exact (proj2 (empty_author_id_is_absent alice_for_all millisecs_of_day)
             (message_of (Some "") "exploration.abc123.4") [] eq_refl eq_refl).
Defined.

Lemma summary_to_dict_keeps_fields_example :
  FeedbackThreadSummary.status summary_of_uid_1 = "open"
  /\ FeedbackThreadSummary.original_author_id summary_of_uid_1 = Some "uid_1".
Proof.
  destruct (summary_to_dict_keeps_fields millisecs_of_day summary_of_uid_1
              summary_of_uid_1 eq_refl) as (Hstatus & Hauthor & _).
  split; [exact Hstatus|exact Hauthor].
Defined.

Lemma analytics_of_two_entities :
  FeedbackAnalytics.to_dict (FeedbackAnalytics.init "exploration" "abc123" 1 3)
  = FeedbackAnalytics.to_dict (FeedbackAnalytics.init "topic" "xyz789" 1 3).
Proof.
  apply (analytics_to_dict_is_the_counters
           (FeedbackAnalytics.init "exploration" "abc123" 1 3)
           (FeedbackAnalytics.init "topic" "xyz789" 1 3)).
  split; reflexivity.
Defined.

Lemma reference_to_dict_injective_example :
  FeedbackMessageReference.init "exploration" "abc123" "exploration.abc123.t1"
    (VInt 4)
  = {| FeedbackMessageReference.entity_type := "exploration";
       FeedbackMessageReference.entity_id := "abc123";
       FeedbackMessageReference.thread_id := "exploration.abc123.t1";
       FeedbackMessageReference.message_id := VInt 4 |}.
Proof.
  apply reference_to_dict_injective. reflexivity.
Defined.

(** ** More on the improvements handlers *)

Lemma first_missing_key_keys (task_entry : gmap string PyVal) (k : string) :
  first_missing_key task_entry = Some k -> has_required_keys task_entry = false.
Proof.
  unfold first_missing_key, has_required_keys.
  destruct (task_entry !! "entity_version"), (task_entry !! "task_type"),
    (task_entry !! "target_id"), (task_entry !! "status");
    (discriminate || reflexivity).
Qed.

Lemma agree_on_read_keys_lookups (item1 item2 : gmap string PyVal) :
  agree_on_read_keys item1 item2 ->
  item1 !! "entity_version" = item2 !! "entity_version"
  /\ item1 !! "task_type" = item2 !! "task_type"
  /\ item1 !! "target_id" = item2 !! "target_id"
  /\ item1 !! "status" = item2 !! "status"
  /\ item1 !! "issue_description" = item2 !! "issue_description".
Proof.
  unfold agree_on_read_keys, keys_read_by_post. intros H.
  inversion H as [|? ? H1 H']; subst. inversion H' as [|? ? H2 H'']; subst.
  inversion H'' as [|? ? H3 H3']; subst. inversion H3' as [|? ? H4 H4']; subst.
  inversion H4' as [|? ? H5 _]; subst. auto.
Qed.

Section improvements_more.
Variable TASK_ENTITY_TYPE_EXPLORATION : string.
Variable TASK_TARGET_TYPE_STATE : string.
Variable clock : nat -> datetime.
Variable get_exploration_by_id : string -> result Exploration.
Variable IS_IMPROVEMENTS_TAB_ENABLED : PyVal.
Variable HIGH_BOUNCE_RATE_TASK_STATE_BOUNCE_RATE_CREATION_THRESHOLD : PyVal.
Variable HIGH_BOUNCE_RATE_TASK_STATE_BOUNCE_RATE_OBSOLETION_THRESHOLD : PyVal.
Variable HIGH_BOUNCE_RATE_TASK_MINIMUM_EXPLORATION_STARTS : PyVal.

#[local] Abbreviation post_loop' :=
  (post_loop TASK_ENTITY_TYPE_EXPLORATION TASK_TARGET_TYPE_STATE clock).
#[local] Abbreviation post' :=
  (post TASK_ENTITY_TYPE_EXPLORATION TASK_TARGET_TYPE_STATE clock).
#[local] Abbreviation expected_task' :=
  (expected_task TASK_ENTITY_TYPE_EXPLORATION TASK_TARGET_TYPE_STATE clock).

(** The loop over a concatenation is the loop over the first list, then,
    unless that raised, the loop over the second. *)
Lemma post_loop_app (self : handler) (exploration_id : string)
    (l1 l2 : list (gmap string PyVal)) :
  forall (task_entries_to_put : list TaskEntry) (w : world),
    post_loop' self exploration_id (l1 ++ l2) task_entries_to_put w
    = match post_loop' self exploration_id l1 task_entries_to_put w with
      | (Ok built, w') => post_loop' self exploration_id l2 built w'
      | (Raise e, w') => (Raise e, w')
      end.
Proof.
  induction l1 as [|item l1 IH]; intros acc w; [reflexivity|].
  cbn [post_loop app]. unfold bind, lift.
  destruct (dict_getitem item "entity_version"); [|reflexivity].
  destruct (dict_getitem item "task_type"); [|reflexivity].
  destruct (dict_getitem item "target_id"); [|reflexivity].
  destruct (dict_getitem item "status"); [|reflexivity].
  unfold utcnow. apply IH.
Qed.

Lemma post_loop_missing_key (self : handler) (exploration_id : string)
    (task_entry : gmap string PyVal) (rest : list (gmap string PyVal))
    (k : string) (task_entries_to_put : list TaskEntry) (w : world) :
  first_missing_key task_entry = Some k ->
  post_loop' self exploration_id (task_entry :: rest) task_entries_to_put w
  = (Raise (KeyError k), w).
Proof.
  unfold first_missing_key. cbn [post_loop]. unfold bind, lift, dict_getitem.
  destruct (task_entry !! "entity_version"); [|intros [= <-]; reflexivity].
  destruct (task_entry !! "task_type"); [|intros [= <-]; reflexivity].
  destruct (task_entry !! "target_id"); [|intros [= <-]; reflexivity].
  destruct (task_entry !! "status"); [discriminate|intros [= <-]; reflexivity].
Qed.

Lemma post_run (self : handler) (exploration_id : string)
    (task_entries : list (gmap string PyVal)) (w : world) :
  normalized_payload self !! "task_entries" = Some (ArgDicts task_entries) ->
  Forall (fun item => has_required_keys item = true) task_entries ->
  post' self exploration_id w
  = (Ok tt,
     {| utcnow_calls := (utcnow_calls w + List.length task_entries)%nat;
        put_tasks_calls :=
          (put_tasks_calls w
           ++ [imap (expected_task' self exploration_id (utcnow_calls w))
                 task_entries])%list;
        rendered := (rendered w ++ [∅])%list |}).
Proof.
  intros Hpayload Hvalid. unfold post, bind. rewrite Hpayload. unfold ret at 1.
  rewrite (post_loop_run _ _ _ _ _ _ Hvalid). reflexivity.
Qed.

(** X13: when an item lacks one of the keys that [post] subscripts, the
    request raises [KeyError] for the first such key of the first such item;
    nothing is handed to [put_tasks] and nothing is rendered, although the
    clock was read once for each item before it. *)
Theorem post_with_missing_key_submits_nothing (self : handler)
    (exploration_id : string) (good : list (gmap string PyVal))
    (bad : gmap string PyVal) (rest : list (gmap string PyVal))
    (k : string) (w : world) :
  normalized_payload self !! "task_entries"
  = Some (ArgDicts (good ++ bad :: rest)) ->
  Forall (fun item => has_required_keys item = true) good ->
  first_missing_key bad = Some k ->
  post' self exploration_id w
  = (Raise (KeyError k),
     {| utcnow_calls := (utcnow_calls w + List.length good)%nat;
        put_tasks_calls := put_tasks_calls w;
        rendered := rendered w |}).
Proof.
  intros Hpayload Hgood Hbad. unfold post, bind. rewrite Hpayload.
  unfold ret at 1. rewrite post_loop_app.
  rewrite (post_loop_run _ _ _ _ _ _ Hgood).
  rewrite (post_loop_missing_key _ _ _ _ _ _ _ Hbad). reflexivity.
Qed.

(** X14: when the payload has no [task_entries], or has a scalar other than
    the empty string there, [post] raises [TypeError] and leaves the world as
    it was: no clock reading, no batch, no response. *)
Theorem post_without_task_entries (self : handler) (exploration_id : string)
    (w : world) :
  normalized_payload self !! "task_entries" = None
  \/ (exists v, normalized_payload self !! "task_entries" = Some (ArgVal v)
                /\ v <> VStr "") ->
  post' self exploration_id w = (Raise TypeError, w).
Proof.
  intros [H|(v & H & Hv)]; unfold post, bind; rewrite H; [reflexivity|].
  destruct v as [| | |s]; try reflexivity.
  destruct s; [congruence|reflexivity].
Qed.

(** X15: the task of the [i]-th item carries the [i]-th reading of the
    clock made by the request, and the user of the request as resolver. *)
Theorem post_stamps_each_task (self : handler) (exploration_id : string)
    (task_entries : list (gmap string PyVal)) (w : world) :
  normalized_payload self !! "task_entries" = Some (ArgDicts task_entries) ->
  Forall (fun item => has_required_keys item = true) task_entries ->
  exists (batch : list TaskEntry) (w' : world),
    post' self exploration_id w = (Ok tt, w')
    /\ put_tasks_calls w' = (put_tasks_calls w ++ [batch])%list
    /\ forall (i : nat) (task : TaskEntry),
        batch !! i = Some task ->
        resolved_on task = clock (utcnow_calls w + i)%nat
        /\ resolver_id task = user_id self.
Proof.
  intros Hpayload Hvalid. eexists. eexists.
  split; [exact (post_run _ _ _ _ Hpayload Hvalid)|].
  split; [reflexivity|].
  intros i task Hi. rewrite list_lookup_imap in Hi.
  destruct (task_entries !! i) as [item|]; [|discriminate].
  injection Hi as <-. split; reflexivity.
Qed.

Lemma post_loop_agree (self other : handler) (exploration_id : string)
    (l1 l2 : list (gmap string PyVal)) :
  user_id self = user_id other ->
  Forall2 agree_on_read_keys l1 l2 ->
  forall (task_entries_to_put : list TaskEntry) (w : world),
    post_loop' self exploration_id l1 task_entries_to_put w
    = post_loop' other exploration_id l2 task_entries_to_put w.
Proof.
  intros Huser. induction 1 as [|item1 item2 l1 l2 Hitem _ IH]; intros acc w;
    [reflexivity|].
  destruct (agree_on_read_keys_lookups _ _ Hitem) as (H1 & H2 & H3 & H4 & H5).
  cbn [post_loop]. unfold bind, lift, dict_getitem, dict_get.
  rewrite H1, H2, H3, H4, H5, Huser.
  destruct (item2 !! "entity_version"); [|reflexivity].
  destruct (item2 !! "task_type"); [|reflexivity].
  destruct (item2 !! "target_id"); [|reflexivity].
  destruct (item2 !! "status"); [|reflexivity].
  unfold utcnow. apply IH.
Qed.

(** X16: [post] reads five keys of an item and nothing else: two requests
    by the same user whose items agree on these keys have the same outcome
    and the same effects, so an item cannot set the entity, the resolver or
    the time of its task. *)
Theorem post_reads_five_keys (self other : handler) (exploration_id : string)
    (l1 l2 : list (gmap string PyVal)) (w : world) :
  normalized_payload self !! "task_entries" = Some (ArgDicts l1) ->
  normalized_payload other !! "task_entries" = Some (ArgDicts l2) ->
  user_id self = user_id other ->
  Forall2 agree_on_read_keys l1 l2 ->
  post' self exploration_id w = post' other exploration_id w.
Proof.
  intros H1 H2 Huser Hagree. unfold post, bind. rewrite H1, H2.
  unfold ret.
  rewrite (post_loop_agree self other exploration_id l1 l2 Huser Hagree).
  reflexivity.
Qed.

(** X18: when the exploration cannot be fetched, the GET on the config
    endpoint raises what the fetch raised and renders nothing. *)
Theorem config_get_without_exploration (exploration_id : string) (e : exn)
    (w : world) :
  get_exploration_by_id exploration_id = Raise e ->
  get get_exploration_by_id IS_IMPROVEMENTS_TAB_ENABLED
    HIGH_BOUNCE_RATE_TASK_STATE_BOUNCE_RATE_CREATION_THRESHOLD
    HIGH_BOUNCE_RATE_TASK_STATE_BOUNCE_RATE_OBSOLETION_THRESHOLD
    HIGH_BOUNCE_RATE_TASK_MINIMUM_EXPLORATION_STARTS exploration_id w
  = (Raise e, w).
Proof. intros H. unfold get, bind, lift. rewrite H. reflexivity. Qed.
End improvements_more.

Lemma Forall2_imap {A B : Type} (R : B -> B -> Prop) (l : list A) :
  forall f g : nat -> A -> B,
    (forall i x, R (f i x) (g i x)) -> Forall2 R (imap f l) (imap g l).
Proof.
  induction l as [|x l IH]; intros f g H; [constructor|].
  cbn [imap]. constructor; [apply H|]. apply IH. intros i y. apply H.
Qed.

(** X17: two requests in a row hand to [put_tasks] two batches which, taken
    together, hold the same tasks, item by item and up to [resolved_on], as
    the single batch of one request with both lists of items, whatever the
    clock shows during each of the three requests; and the clock is read as
    often either way. *)
Theorem two_posts_submit_the_concatenation
    (TASK_ENTITY_TYPE_EXPLORATION TASK_TARGET_TYPE_STATE : string)
    (clock1 clock2 clock12 : nat -> datetime)
    (first second both : handler) (exploration_id : string)
    (l1 l2 : list (gmap string PyVal)) (w : world) :
  normalized_payload first !! "task_entries" = Some (ArgDicts l1) ->
  normalized_payload second !! "task_entries" = Some (ArgDicts l2) ->
  normalized_payload both !! "task_entries" = Some (ArgDicts (l1 ++ l2)) ->
  user_id first = user_id both ->
  user_id second = user_id both ->
  Forall (fun item => has_required_keys item = true) l1 ->
  Forall (fun item => has_required_keys item = true) l2 ->
  exists (batch1 batch2 batch12 : list TaskEntry) (w1 w2 w12 : world),
    post TASK_ENTITY_TYPE_EXPLORATION TASK_TARGET_TYPE_STATE clock1
      first exploration_id w = (Ok tt, w1)
    /\ post TASK_ENTITY_TYPE_EXPLORATION TASK_TARGET_TYPE_STATE clock2
         second exploration_id w1 = (Ok tt, w2)
    /\ post TASK_ENTITY_TYPE_EXPLORATION TASK_TARGET_TYPE_STATE clock12
         both exploration_id w = (Ok tt, w12)
    /\ put_tasks_calls w2 = (put_tasks_calls w ++ [batch1; batch2])%list
    /\ put_tasks_calls w12 = (put_tasks_calls w ++ [batch12])%list
    /\ Forall2 agree_except_resolved_on batch12 (batch1 ++ batch2)
    /\ utcnow_calls w2 = utcnow_calls w12.
Proof.
  intros H1 H2 H12 Hu1 Hu2 Hv1 Hv2.
  assert (Hv12 : Forall (fun item => has_required_keys item = true) (l1 ++ l2))
    by (apply Forall_app; split; assumption).
  do 6 eexists.
  split; [exact (post_run _ _ clock1 _ _ _ _ H1 Hv1)|].
  split; [exact (post_run _ _ clock2 _ _ _ _ H2 Hv2)|].
  split; [exact (post_run _ _ clock12 _ _ _ _ H12 Hv12)|].
  cbn [utcnow_calls put_tasks_calls rendered]. repeat apply conj.
  - rewrite <- app_assoc. reflexivity.
  - reflexivity.
  - rewrite imap_app. apply Forall2_app.
    + apply Forall2_imap. intros i x.
      unfold agree_except_resolved_on, expected_task, task_entry_of_item.
      simpl. rewrite Hu1. repeat apply conj; reflexivity.
    + apply Forall2_imap. intros i x.
      unfold agree_except_resolved_on, expected_task, task_entry_of_item.
      simpl. rewrite Hu2. repeat apply conj; reflexivity.
  - rewrite length_app. lia.
Qed.

Lemma post_with_item_without_target :
  post "exploration" "state" clock_of_seconds
    (handler_with [item_bounce; item_without_target; item_answers]) "abc123"
    fresh_world
  = (Raise (KeyError "target_id"),
     {| utcnow_calls := 1; put_tasks_calls := []; rendered := [] |}).
Proof.
  apply (post_with_missing_key_submits_nothing "exploration" "state"
           clock_of_seconds
           (handler_with [item_bounce; item_without_target; item_answers])
           "abc123" [item_bounce] item_without_target [item_answers]
           "target_id" fresh_world).
  - reflexivity.
  - repeat constructor.
  - reflexivity.
Defined.

Lemma post_of_handler_without_entries :
  post "exploration" "state" clock_of_seconds handler_without_entries "abc123"
    fresh_world
  = (Raise TypeError, fresh_world).
Proof.
  apply (post_without_task_entries "exploration" "state" clock_of_seconds
           handler_without_entries "abc123" fresh_world).
  left. reflexivity.
Defined.

Lemma post_stamps_two_tasks :
  exists (batch : list TaskEntry) (w' : world),
    post "exploration" "state" clock_of_seconds
      (handler_with [item_bounce; item_answers]) "abc123" fresh_world
    = (Ok tt, w')
    /\ put_tasks_calls w' = [batch].
Proof.
  assert (Hvalid : Forall (fun item => has_required_keys item = true)
                     [item_bounce; item_answers])
    by (repeat constructor).
  destruct (post_stamps_each_task "exploration" "state" clock_of_seconds
              (handler_with [item_bounce; item_answers]) "abc123"
              [item_bounce; item_answers] fresh_world eq_refl Hvalid)
    as (batch & w' & Hrun & Hlog & _).
  exists batch, w'. split; [exact Hrun|exact Hlog].
Defined.

Lemma post_of_item_with_extras :
  post "exploration" "state" clock_of_seconds
    (handler_with [item_bounce_with_extras]) "abc123" fresh_world
  = post "exploration" "state" clock_of_seconds
      (handler_with [item_bounce]) "abc123" fresh_world.
Proof.
  apply (post_reads_five_keys "exploration" "state" clock_of_seconds
           (handler_with [item_bounce_with_extras]) (handler_with [item_bounce])
           "abc123" [item_bounce_with_extras] [item_bounce] fresh_world);
    try reflexivity.
  repeat constructor.
Defined.

Lemma two_posts_of_one_item :
  exists (batch1 batch2 batch12 : list TaskEntry) (w1 w2 w12 : world),
    post "exploration" "state" clock_of_seconds (handler_with [item_bounce])
      "abc123" fresh_world = (Ok tt, w1)
    /\ post "exploration" "state" (fun _ => one_o_clock)
         (handler_with [item_answers]) "abc123" w1 = (Ok tt, w2)
    /\ post "exploration" "state" (fun _ => epoch)
         (handler_with [item_bounce; item_answers]) "abc123" fresh_world
       = (Ok tt, w12)
    /\ put_tasks_calls w2 = [batch1; batch2]
    /\ put_tasks_calls w12 = [batch12]
    /\ Forall2 agree_except_resolved_on batch12 (batch1 ++ batch2)
    /\ utcnow_calls w2 = utcnow_calls w12.
Proof.
  apply (two_posts_submit_the_concatenation "exploration" "state"
           clock_of_seconds (fun _ => one_o_clock) (fun _ => epoch)
           (handler_with [item_bounce]) (handler_with [item_answers])
           (handler_with [item_bounce; item_answers]) "abc123"
           [item_bounce] [item_answers] fresh_world);
    try reflexivity; repeat constructor.
Defined.

Lemma config_get_of_missing_exploration :
  get fetch_abc123 (VBool true) (VInt 20) (VInt 20) (VInt 100) "missing"
    fresh_world
  = (Raise (ServiceError "Entity not found"), fresh_world).
Proof.
  apply (config_get_without_exploration fetch_abc123 (VBool true) (VInt 20)
           (VInt 20) (VInt 100) "missing"). reflexivity.
Defined.

(** ** More on the story commit log entry validator *)

Section story_commit_log_entry_more.
Import ValidateStoryCommitLogEntryModel.

Variable clone_model : Model.t -> Model.t.
Hypothesis clone_model_keeps_id :
  forall m, Model.id (clone_model m) = Model.id m.

(** X19: a record whose id has fewer than five characters is skipped; and
    once a record is validated against [StoryChange], so is every record
    whose id extends its id. *)
Theorem story_commit_log_entry_short_and_extended_ids (input_model : Model.t) :
  ((String.length (Model.id input_model) < 5)%nat ->
   _get_change_domain_class clone_model input_model = None)
  /\ (forall (other : Model.t) (suffix : string),
        _get_change_domain_class clone_model input_model = Some StoryChange ->
        Model.id other = (Model.id input_model ++ suffix)%string ->
        _get_change_domain_class clone_model other = Some StoryChange).
Proof.
  unfold _get_change_domain_class. rewrite clone_model_keeps_id. split.
  - intros Hlen.
    destruct (startswith (Model.id input_model) "story") eqn:E; [|reflexivity].
    apply startswith_spec in E as [rest E]. rewrite E in Hlen.
    change ("story" ++ rest)%string
      with (String "s" (String "t" (String "o" (String "r" (String "y" rest)))))
      in Hlen.
    simpl in Hlen. lia.
  - intros other suffix H Hother. rewrite clone_model_keeps_id.
    destruct (startswith (Model.id input_model) "story") eqn:E; [|discriminate].
    apply startswith_spec in E as [rest E].
    assert (E' : startswith (Model.id other) "story" = true).
    { apply startswith_spec. exists (rest ++ suffix)%string.
      rewrite Hother, E. apply (string_app_assoc "story" rest suffix). }
    rewrite E'. reflexivity.
Qed.
End story_commit_log_entry_more.

Lemma story_commit_log_entry_short_id :
  ValidateStoryCommitLogEntryModel._get_change_domain_class copy_model
    {| Model.id := "stor"; Model.properties := ∅ |} = None
  /\ ValidateStoryCommitLogEntryModel._get_change_domain_class copy_model
    {| Model.id := "story-7-draft"; Model.properties := ∅ |} = Some StoryChange.
Proof.
  split.
  - apply (story_commit_log_entry_short_and_extended_ids copy_model
             (fun m => eq_refl)).
    simpl. lia.
  - apply (proj2 (story_commit_log_entry_short_and_extended_ids copy_model
                    (fun m => eq_refl)
                    {| Model.id := "story-7"; Model.properties := ∅ |})
             {| Model.id := "story-7-draft"; Model.properties := ∅ |}
             "-draft");
      reflexivity.
Defined.

(** ** The entity keys of the dictionary of a message *)

(** X20: whenever [FeedbackMessage.to_dict] returns, both derived properties
    return as well, and the keys [entity_type] and [entity_id] of the
    dictionary are bound to them. *)
Theorem message_to_dict_entity_keys (get_username : string -> string)
    (get_time_in_millisecs : datetime -> Z) (self : FeedbackMessage.t)
    (w w' : username_lookups) (d : gmap string PyVal) :
  FeedbackMessage.to_dict get_username get_time_in_millisecs self w = (Ok d, w') ->
  exists a b,
    FeedbackMessage.entity_type self = Ok a
    /\ FeedbackMessage.entity_id self = Ok b
    /\ d !! "entity_type" = Some (VStr a)
    /\ d !! "entity_id" = Some (VStr b).
Proof.
  intros Hrun.
  destruct (contains "." (FeedbackMessage.id self)) eqn:E.
  - destruct (split_with_sep _ _ E) as (seg1 & seg2 & segs & Hs).
    rewrite (FeedbackMessage_to_dict_run _ _ _ w _ _ _ Hs) in Hrun.
    injection Hrun as <- _. exists seg1, seg2.
    split; [exact (entity_type_first _ _ _ Hs)|].
    split; [exact (entity_id_second _ _ _ _ Hs)|].
    split; lookup_in_dict.
  - rewrite (FeedbackMessage_to_dict_raise _ _ _ w E) in Hrun. discriminate.
Qed.

Lemma message_to_dict_entity_keys_example :
  exists a b,
    FeedbackMessage.entity_type (message_with_id "exploration.abc123.4") = Ok a
    /\ FeedbackMessage.entity_id (message_with_id "exploration.abc123.4") = Ok b
    /\ snd (FeedbackMessage.to_dict alice_for_all millisecs_of_day
              (message_with_id "exploration.abc123.4") []) = [].
Proof.
  destruct (message_to_dict_entity_keys alice_for_all millisecs_of_day
              (message_with_id "exploration.abc123.4") [] []
              (list_to_map [
                 ("author_username", VNone);
                 ("created_on_msecs", VInt 0);
                 ("entity_type", VStr "exploration");
                 ("entity_id", VStr "abc123");
                 ("message_id", VInt 4);
                 ("text", VStr "Thanks");
                 ("updated_status", VNone);
                 ("updated_subject", VNone)])
              eq_refl)
    as (a & b & Ha & Hb & _).
  exists a, b. repeat apply conj; [exact Ha|exact Hb|reflexivity].
Defined.
